(** * Web-Whisper-SDK: the recognition dispatcher of
      [src/speech_recognition/whisper_processor.py]

    A shallow embedding of class [WhisperProcessor]: the language
    property, the guarded factory, the engine wrapper [_recognize_audio],
    the submission call [recognize_async] and the worker loop [_worker],
    followed by the properties of the dispatch subsystem.

    Python values are embedded as follows.
    - [str] is a list of Unicode code points ([pystr]);
    - a [dict] literal is an association list in insertion order;
    - numbers that are only copied or passed on (segment offsets, decoding
      thresholds, timeouts) are rationals;
    - an instance of Python's [Exception] class is a value of [exn]; code
      that may raise computes in the state-and-exception monad [M];
    - what leaves the module (engine invocations, coroutines handed to an
      event loop, waits on a future, log records, thread starts) is
      appended to a trace of [Event]s, oldest first. *)

From Stdlib Require Import List String Ascii Bool Arith NArith ZArith QArith Lia.
Import ListNotations.

Set Implicit Arguments.
Close Scope Q_scope.

(* ================================================================== *)
(** ** Python strings *)

Module PyStr.

(** A Python [str]: its code points. *)
Definition pystr := list N.

(** An ASCII literal of the source as a [pystr]. *)
Fixpoint lit (s : string) : pystr :=
  match s with
  | EmptyString => []
  | String c s' => N_of_ascii c :: lit s'
  end.

(** The empty string. *)
Definition empty_str : pystr := [].

(** [str.isspace] on one code point: the table the interpreter uses for
    [str.strip()] without argument. *)
Definition isspace (c : N) : bool :=
  ((9 <=? c) && (c <=? 13) || (28 <=? c) && (c <=? 32)
   || (c =? 133) || (c =? 160) || (c =? 5760)
   || (8192 <=? c) && (c <=? 8202)
   || (c =? 8232) || (c =? 8233) || (c =? 8239) || (c =? 8287)
   || (c =? 12288))%N.

Fixpoint dropwhile (p : N -> bool) (s : pystr) : pystr :=
  match s with
  | [] => []
  | c :: s' => if p c then dropwhile p s' else s
  end.

Definition lstrip (s : pystr) : pystr := dropwhile isspace s.
Definition rstrip (s : pystr) : pystr := rev (dropwhile isspace (rev s)).

(** [s.strip()]: whitespace removed from the left end, then from the
    right end of what is left. *)
Definition strip (s : pystr) : pystr := rstrip (lstrip s).

(** [str(n)] for an [int]. *)
Definition digit (d : N) : N := 48 + d.

Fixpoint digits (fuel : nat) (n : N) (acc : pystr) : pystr :=
  match fuel with
  | O => acc
  | S fuel' =>
      let acc' := digit (n mod 10) :: acc in
      if (n <? 10)%N then acc' else digits fuel' (n / 10)%N acc'
  end.

Definition str_of_N (n : N) : pystr := digits (S (N.to_nat (N.log2 n))) n [].

Definition str_of_Z (z : Z) : pystr :=
  match z with
  | Zneg p => 45%N :: str_of_N (Npos p)
  | _ => str_of_N (Z.to_N z)
  end.

(** No whitespace at either end. *)
Definition no_leading_space (s : pystr) : Prop :=
  match s with [] => True | c :: _ => isspace c = false end.
Definition no_trailing_space (s : pystr) : Prop := no_leading_space (rev s).
Definition trimmed (s : pystr) : Prop :=
  no_leading_space s /\ no_trailing_space s.

End PyStr.
Export PyStr.

(* ================================================================== *)
(** ** Values that cross the module boundary *)

Set Warnings "-register-all".

(** A Python value as far as the delivered payload needs it. A [dict] is
    the list of its items in insertion order. *)
Inductive PyVal :=
| VStr (s : pystr)
| VNum (q : Q)
| VList (l : list PyVal)
| VDict (d : list (string * PyVal)).

Definition Payload := list (string * PyVal).

(** [d.get(key)] and [key in d]. *)
Fixpoint dict_get (key : string) (d : Payload) : option PyVal :=
  match d with
  | [] => None
  | (k, v) :: d' => if String.eqb k key then Some v else dict_get key d'
  end.

Definition dict_has (key : string) (d : Payload) : bool :=
  match dict_get key d with Some _ => true | None => false end.

Definition dict_keys (d : Payload) : list string := map fst d.

(** Instances of [Exception], the class the [except] clauses of the module
    name. [Empty] is [queue.Empty], [TimeoutError] is what [Future.result]
    raises when its bound elapses; every other exception is kept by its
    [str()]. *)
Inductive exn :=
| Empty
| TimeoutError
| Exception (msg : pystr).

Definition str_exn (e : exn) : pystr :=
  match e with
  | Empty => []
  | TimeoutError => []
  | Exception msg => msg
  end.

(** Outcome of a call: a value, or an exception in flight. *)
Inductive res (A : Type) :=
| Ret (a : A)
| Raise (e : exn).
Arguments Ret {A} a.
Arguments Raise {A} e.

(** Mono PCM samples; the module hands them to the model untouched. *)
Definition Audio := list Z.

(** Keyword arguments of [model.transcribe]. *)
Record TranscribeOptions := {
  language : option pystr;
  initial_prompt : option pystr;
  fp16 : bool;
  verbose : bool;
  no_speech_threshold : Q;
  condition_on_previous_text : bool;
  compression_ratio_threshold : Q;
  patience : Q;
  beam_size : Z;
  temperature : Q
}.

(** What [model.transcribe] returns: [result["text"]],
    [result["language"]], [result["segments"]] with [seg["start"]],
    [seg["end"]], [seg["text"]]. *)
Record RawSegment := {
  raw_start : Q;
  raw_end : Q;
  raw_seg_text : pystr
}.

Record RawResult := {
  raw_text : pystr;
  raw_language : pystr;
  raw_segments : list RawSegment
}.

(** The loaded model: one blocking call that returns or raises. *)
Definition WhisperModel := Audio -> TranscribeOptions -> res RawResult.

(** [future.result(timeout=t)]: returns, or raises. *)
Definition Future := Q -> res unit.

(** An asynchronous callback [(result, session_id, speech_id) -> awaitable].
    Calling it builds the coroutine (or raises); the coroutine is
    identified with the future that running it yields. *)
Record Callback := {
  cb_id : nat;
  cb_call : Payload -> pystr -> Z -> res Future
}.

(** The caller's event loop, as [asyncio.run_coroutine_threadsafe] sees
    it: it takes the coroutine, or the call raises [loop_refuses]. *)
Record EventLoop := {
  loop_id : nat;
  loop_refuses : option exn
}.

(** The tuple put on the queue by [recognize_async]. A falsy [callback] or
    [running_loop] is [None]. *)
Record Task := {
  audio_data : Audio;
  session_id : pystr;
  speech_id : Z;
  callback : option Callback;
  running_loop : option EventLoop;
  prompt : option pystr
}.

Inductive Level := INFO | ERROR.

(** Effects visible outside the module. *)
Inductive Event :=
| ThreadStart
| Transcribe (audio : Audio) (opts : TranscribeOptions)
| CallbackCall (cb : nat) (result : Payload) (sid : pystr) (spid : Z)
| Scheduled (loop : nat)
| Wait (timeout : Q)
| Log (level : Level) (msg : pystr).

Inductive ThreadState := Running | Stopped.

(** The class attribute [_whisper_model], the instance attributes of one
    [WhisperProcessor] and the trace of the process. An item of the queue
    is a task or the sentinel [None]. *)
Record St := {
  _whisper_model : option WhisperModel;
  _recognition_queue : list (option Task);
  _worker_thread : ThreadState;
  _language : option pystr;
  trace : list Event
}.

(* ================================================================== *)
(** ** The state-and-exception monad *)

(** A computation runs from a state and ends in a value or a raised
    exception; what it did to the state stays done in both cases. *)
Definition M (A : Type) := St -> res A * St.

Definition ret {A} (a : A) : M A := fun s => (Ret a, s).

Definition raise {A} (e : exn) : M A := fun s => (Raise e, s).

Definition bind {A B} (m : M A) (k : A -> M B) : M B :=
  fun s =>
    match m s with
    | (Ret a, s') => k a s'
    | (Raise e, s') => (Raise e, s')
    end.

(** [try: body  except Exception as e: handler e]. *)
Definition try_except {A} (body : M A) (handler : exn -> M A) : M A :=
  fun s =>
    match body s with
    | (Ret a, s') => (Ret a, s')
    | (Raise e, s') => handler e s'
    end.

(** The result of a call that touches no state of ours. *)
Definition call {A} (r : res A) : M A := fun s => (r, s).

Declare Scope py_scope.
Delimit Scope py_scope with py.
Notation "x <- m ;; k" := (bind m (fun x => k))
  (at level 61, m at next level, right associativity) : py_scope.
Notation "m ;; k" := (bind m (fun _ => k))
  (at level 61, right associativity) : py_scope.
Open Scope py_scope.

Definition emit (e : Event) : M unit :=
  fun s =>
    (Ret tt,
     {| _whisper_model := _whisper_model s;
        _recognition_queue := _recognition_queue s;
        _worker_thread := _worker_thread s;
        _language := _language s;
        trace := trace s ++ [e] |}).

Definition logger_info (msg : pystr) : M unit := emit (Log INFO msg).
Definition logger_error (msg : pystr) : M unit := emit (Log ERROR msg).

Definition read {A} (f : St -> A) : M A := fun s => (Ret (f s), s).

(** [self._recognition_queue.put(item)]: the queue is unbounded, the item
    goes to its end. *)
Definition queue_put (item : option Task) : M unit :=
  fun s =>
    (Ret tt,
     {| _whisper_model := _whisper_model s;
        _recognition_queue := _recognition_queue s ++ [item];
        _worker_thread := _worker_thread s;
        _language := _language s;
        trace := trace s |}).

(** [self._recognition_queue.get(timeout=t)]: the oldest item, or
    [queue.Empty] when none came within the bound. *)
Definition queue_get (timeout : Q) : M (option Task) :=
  fun s =>
    match _recognition_queue s with
    | [] => (Raise Empty, s)
    | item :: rest =>
        (Ret item,
         {| _whisper_model := _whisper_model s;
            _recognition_queue := rest;
            _worker_thread := _worker_thread s;
            _language := _language s;
            trace := trace s |})
    end.

Definition set_thread (t : ThreadState) : M unit :=
  fun s =>
    (Ret tt,
     {| _whisper_model := _whisper_model s;
        _recognition_queue := _recognition_queue s;
        _worker_thread := t;
        _language := _language s;
        trace := trace s |}).

(* ================================================================== *)
(** ** class WhisperProcessor *)

(** [is_model_loaded]: [cls._whisper_model is not None]. *)
Definition is_model_loaded (cls_model : option WhisperModel) : bool :=
  match cls_model with
  | Some _ => true
  | None => false
  end.

(** [__init__]: a fresh queue, the worker thread started, the language
    set to ["en"]. [tr] is the trace of the process so far. *)
Definition __init__ (cls_model : option WhisperModel) (tr : list Event) : St :=
  {| _whisper_model := cls_model;
     _recognition_queue := [];
     _worker_thread := Running;
     _language := Some (lit "en");
     trace := tr ++ [ThreadStart] |}.

(** [create]: [WhisperProcessor() if cls._whisper_model else None],
    with the trace of the process after the call. *)
Definition create (cls_model : option WhisperModel) (tr : list Event)
  : option St * list Event :=
  match cls_model with
  | Some _ => let s := __init__ cls_model tr in (Some s, trace s)
  | None => (None, tr)
  end.

(** The [language] getter. *)
Definition get_language : M (option pystr) := read _language.

(** The [language] setter: the empty string becomes [None]. *)
Definition set_language (value : option pystr) : M unit :=
  fun s =>
    let value :=
      match value with
      | Some [] => None
      | _ => value
      end in
    (Ret tt,
     {| _whisper_model := _whisper_model s;
        _recognition_queue := _recognition_queue s;
        _worker_thread := _worker_thread s;
        _language := value;
        trace := trace s |}).

(** The keyword arguments [_recognize_audio] passes to the model. *)
Definition transcribe_options (lang prompt : option pystr) : TranscribeOptions :=
  {| language := lang;
     initial_prompt := prompt;
     fp16 := false;
     verbose := false;
     no_speech_threshold := 5 # 100;
     condition_on_previous_text := false;
     compression_ratio_threshold := 24 # 10;
     patience := 1;
     beam_size := 5;
     temperature := 0 |}.

(** [model.transcribe(audio, **opts)]. *)
Definition transcribe (model : WhisperModel) (audio : Audio)
    (opts : TranscribeOptions) : M RawResult :=
  emit (Transcribe audio opts) ;; call (model audio opts).

(** One item of the [segments] comprehension. *)
Definition shape_segment (seg : RawSegment) : PyVal :=
  VDict [ ("start"%string, VNum (raw_start seg));
          ("end"%string, VNum (raw_end seg));
          ("text"%string, VStr (strip (raw_seg_text seg))) ].

Definition success_payload (result : RawResult) : Payload :=
  [ ("text"%string, VStr (strip (raw_text result)));
    ("language"%string, VStr (raw_language result));
    ("segments"%string, VList (map shape_segment (raw_segments result))) ].

Definition error_payload (msg : pystr) : Payload :=
  [ ("error"%string, VStr msg) ].

(** [_recognize_audio]. The debug record written when the logger is at
    DEBUG level is left out of the trace. *)
Definition _recognize_audio (audio : Audio) (prompt : option pystr) : M Payload :=
  try_except
    (model <- read _whisper_model ;;
     match model with
     | None => ret (error_payload (lit "Whisper model not available"))
     | Some m =>
         lang <- read _language ;;
         result <- transcribe m audio (transcribe_options lang prompt) ;;
         ret (success_payload result)
     end)
    (fun e =>
       logger_error (lit "Whisper recognition error: " ++ str_exn e) ;;
       ret (error_payload (str_exn e))).

(** [recognize_async]. *)
Definition recognize_async (t : Task) : M unit :=
  try_except
    (queue_put (Some t) ;;
     logger_info (lit "Audio recognition queued for session " ++ session_id t
                  ++ lit " (speech: " ++ str_of_Z (speech_id t) ++ lit ")"))
    (fun e => logger_error (lit "Failed to queue recognition: " ++ str_exn e)).

(** [asyncio.run_coroutine_threadsafe(callback(result, sid, spid), loop)]:
    the callback is called first, then the coroutine goes to the loop. *)
Definition run_coroutine_threadsafe (cb : Callback) (loop : EventLoop)
    (result : Payload) (sid : pystr) (spid : Z) : M Future :=
  emit (CallbackCall (cb_id cb) result sid spid) ;;
  coro <- call (cb_call cb result sid spid) ;;
  match loop_refuses loop with
  | Some e => raise e
  | None => emit (Scheduled (loop_id loop)) ;; ret coro
  end.

(** [future.result(timeout=t)]. *)
Definition future_result (future : Future) (timeout : Q) : M unit :=
  emit (Wait timeout) ;; call (future timeout).

Inductive LoopCtl := Next | Break.

(** The body of [while True:] in [_worker]. *)
Definition worker_iteration : M LoopCtl :=
  try_except
    (task <- queue_get 1 ;;
     match task with
     | None => ret Break
     | Some t =>
         result <- _recognize_audio (audio_data t) (prompt t) ;;
         match callback t, running_loop t with
         | Some cb, Some loop =>
             future <- run_coroutine_threadsafe cb loop result
                         (session_id t) (speech_id t) ;;
             try_except
               (future_result future 5)
               (fun e =>
                  logger_error (lit "Failed to send recognition result: "
                                ++ str_exn e))
         | _, _ => ret tt
         end ;;
         ret Next
     end)
    (fun e =>
       match e with
       | Empty => ret Next
       | _ => logger_error (lit "Recognition worker error: " ++ str_exn e) ;;
              ret Next
       end).

(** [_worker]: the loop, cut after [fuel] iterations. The thread is over
    once the loop is left, by [break] or by an exception coming out of
    the body. *)
Fixpoint _worker (fuel : nat) : M ThreadState :=
  match fuel with
  | O => ret Running
  | S fuel' =>
      fun s =>
        match worker_iteration s with
        | (Ret Next, s') => _worker fuel' s'
        | (Ret Break, s') => (set_thread Stopped ;; ret Stopped) s'
        | (Raise e, s') => (set_thread Stopped ;; raise e) s'
        end
  end.

(** What may happen to one dispatcher, one step at a time: the caller
    submits a request, the caller sets the language, the worker thread
    (while it runs) goes once round its loop. *)
Inductive Action :=
| Submit (t : Task)
| SetLanguage (value : option pystr)
| WorkerStep.

Definition step (a : Action) (s : St) : St :=
  match a with
  | Submit t => snd (recognize_async t s)
  | SetLanguage v => snd (set_language v s)
  | WorkerStep =>
      match _worker_thread s with
      | Running => snd (_worker 1 s)
      | Stopped => s
      end
  end.

Fixpoint run (acts : list Action) (s : St) : St :=
  match acts with
  | [] => s
  | a :: acts' => run acts' (step a s)
  end.

(** The engine invocations and the callback calls of a trace. *)
Fixpoint engine_calls (tr : list Event) : list (Audio * TranscribeOptions) :=
  match tr with
  | [] => []
  | Transcribe a o :: tr' => (a, o) :: engine_calls tr'
  | _ :: tr' => engine_calls tr'
  end.

Fixpoint callback_calls (tr : list Event) : list (nat * Payload * pystr * Z) :=
  match tr with
  | [] => []
  | CallbackCall c p sid spid :: tr' => (c, p, sid, spid) :: callback_calls tr'
  | _ :: tr' => callback_calls tr'
  end.

Fixpoint submitted (acts : list Action) : list Task :=
  match acts with
  | [] => []
  | Submit t :: acts' => t :: submitted acts'
  | _ :: acts' => submitted acts'
  end.

(** The tasks waiting in a queue, sentinels left out. *)
Fixpoint pending (q : list (option Task)) : list Task :=
  match q with
  | [] => []
  | Some t :: q' => t :: pending q'
  | None :: q' => pending q'
  end.

(** *** Closed forms used in the proofs

    [add_trace] and [set_queue] name the two ways the code changes a
    state; [recognize_payload], [recognize_events] and [delivery_events]
    spell out, case by case, what [_recognize_audio] returns and what one
    worker iteration appends to the trace. They are proved equal to the
    monadic code in [recognize_audio_eq] and [worker_iteration_task]. *)

Definition add_trace (s : St) (evs : list Event) : St :=
  {| _whisper_model := _whisper_model s;
     _recognition_queue := _recognition_queue s;
     _worker_thread := _worker_thread s;
     _language := _language s;
     trace := trace s ++ evs |}.

Definition set_queue (s : St) (q : list (option Task)) : St :=
  {| _whisper_model := _whisper_model s;
     _recognition_queue := q;
     _worker_thread := _worker_thread s;
     _language := _language s;
     trace := trace s |}.

Definition recognize_payload (cls_model : option WhisperModel)
    (lang : option pystr) (audio : Audio) (prompt : option pystr) : Payload :=
  match cls_model with
  | None => error_payload (lit "Whisper model not available")
  | Some m =>
      match m audio (transcribe_options lang prompt) with
      | Ret result => success_payload result
      | Raise e => error_payload (str_exn e)
      end
  end.

Definition recognize_events (cls_model : option WhisperModel)
    (lang : option pystr) (audio : Audio) (prompt : option pystr) : list Event :=
  match cls_model with
  | None => []
  | Some m =>
      Transcribe audio (transcribe_options lang prompt) ::
      match m audio (transcribe_options lang prompt) with
      | Ret _ => []
      | Raise e => [Log ERROR (lit "Whisper recognition error: " ++ str_exn e)]
      end
  end.

Definition worker_error_events (e : exn) : list Event :=
  match e with
  | Empty => []
  | _ => [Log ERROR (lit "Recognition worker error: " ++ str_exn e)]
  end.

Definition delivery_events (t : Task) (payload : Payload) : list Event :=
  match callback t, running_loop t with
  | Some cb, Some loop =>
      CallbackCall (cb_id cb) payload (session_id t) (speech_id t) ::
      match cb_call cb payload (session_id t) (speech_id t) with
      | Raise e => worker_error_events e
      | Ret future =>
          match loop_refuses loop with
          | Some e => worker_error_events e
          | None =>
              Scheduled (loop_id loop) :: Wait 5 ::
              match future 5%Q with
              | Ret _ => []
              | Raise e =>
                  [Log ERROR (lit "Failed to send recognition result: "
                              ++ str_exn e)]
              end
          end
      end
  | _, _ => []
  end.

(** The events of the iteration that handles task [t] in state [s]. *)
Definition iteration_events (s : St) (t : Task) : list Event :=
  recognize_events (_whisper_model s) (_language s) (audio_data t) (prompt t)
  ++ delivery_events t
       (recognize_payload (_whisper_model s) (_language s)
          (audio_data t) (prompt t)).

(** The request an engine invocation, or a task, stands for. *)
Definition request_of_call (c : Audio * TranscribeOptions)
  : Audio * option pystr := (fst c, initial_prompt (snd c)).

Definition request_of_task (t : Task) : Audio * option pystr :=
  (audio_data t, prompt t).

Definition engine_call_of (lang : option pystr) (t : Task)
  : Audio * TranscribeOptions :=
  (audio_data t, transcribe_options lang (prompt t)).

Fixpoint scheduled_loops (tr : list Event) : list nat :=
  match tr with
  | [] => []
  | Scheduled l :: tr' => l :: scheduled_loops tr'
  | _ :: tr' => scheduled_loops tr'
  end.

(** Mutations of the dispatcher a caller can make between a submission
    and its processing. *)
Inductive Mutation :=
| MSetLanguage (value : option pystr)
| MSubmit (t : Task).

Definition action_of (m : Mutation) : Action :=
  match m with
  | MSetLanguage v => SetLanguage v
  | MSubmit t => Submit t
  end.

(** A dispatcher in normal operation: its thread runs and no sentinel is
    in its queue. *)
Definition normal (s : St) : Prop :=
  _worker_thread s = Running /\ ~ In None (_recognition_queue s).

(** The value the [language] setter stores. *)
Definition stored_language (value : option pystr) : option pystr :=
  match value with
  | Some [] => None
  | _ => value
  end.

(** The language of a dispatcher after a run of mutations, and the tasks
    these mutations submit. *)
Fixpoint final_language (muts : list Mutation) (lang : option pystr)
  : option pystr :=
  match muts with
  | [] => lang
  | MSetLanguage v :: muts' => final_language muts' (stored_language v)
  | MSubmit _ :: muts' => final_language muts' lang
  end.

Fixpoint msubmitted (muts : list Mutation) : list Task :=
  match muts with
  | [] => []
  | MSetLanguage _ :: muts' => msubmitted muts'
  | MSubmit t :: muts' => t :: msubmitted muts'
  end.

(** Sample inputs. *)
Module Sample.

(** A model whose answer shows the language it was asked for; without
    one it reports the language it detected. *)
Definition echo_model : WhisperModel :=
  fun _ opts =>
    Ret {| raw_text := lit "  konnichiwa ";
           raw_language :=
             match language opts with
             | Some l => l
             | None => lit "ja"
             end;
           raw_segments :=
             [ {| raw_start := 0; raw_end := 1 # 2;
                  raw_seg_text := lit " konnichiwa" |} ] |}.

(** A model that raises on every input. *)
Definition failing_model : WhisperModel :=
  fun _ _ => Raise (Exception (lit "bad audio")).

Definition done : Future := fun _ => Ret tt.
Definition never_done : Future := fun _ => Raise TimeoutError.

Definition cb_ok : Callback := {| cb_id := 1; cb_call := fun _ _ _ => Ret done |}.
Definition cb_slow : Callback :=
  {| cb_id := 2; cb_call := fun _ _ _ => Ret never_done |}.

Definition main_loop : EventLoop := {| loop_id := 0; loop_refuses := None |}.

Definition task (speech : Z) (cb : option Callback) (loop : option EventLoop)
  : Task :=
  {| audio_data := [speech; 2; 3]%Z;
     session_id := lit "s1";
     speech_id := speech;
     callback := cb;
     running_loop := loop;
     prompt := None |}.

Definition t1 : Task := task 1 (Some cb_ok) (Some main_loop).
Definition t2 : Task := task 2 (Some cb_ok) (Some main_loop).

End Sample.

(* ================================================================== *)
(** ** Delivery and policy, as read from a trace *)

(** What a callback call, or a task that can be delivered, is known by:
    the callback and the two correlation identifiers. A task whose
    callback or loop is falsy is delivered to nobody. *)
Definition delivery_of_call (c : nat * Payload * pystr * Z) : nat * pystr * Z :=
  match c with
  | (cb, _, sid, spid) => (cb, sid, spid)
  end.

Definition delivery_of_task (t : Task) : list (nat * pystr * Z) :=
  match callback t, running_loop t with
  | Some cb, Some _ => [(cb_id cb, session_id t, speech_id t)]
  | _, _ => []
  end.

Definition payload_of_call (c : nat * Payload * pystr * Z) : Payload :=
  match c with
  | (_, p, _, _) => p
  end.

(** The keyword arguments of an invocation are those [_recognize_audio]
    writes down, for some language and some prompt. *)
Definition fixed_policy (o : TranscribeOptions) : Prop :=
  o = transcribe_options (language o) (initial_prompt o).

(** The worker thread after [break]. *)
Definition stop_thread (s : St) : St := snd (set_thread Stopped s).

(** The number of worker iterations in a schedule, and the language of a
    dispatcher after it: the value stored by its last language change. *)
Fixpoint worker_steps (acts : list Action) : nat :=
  match acts with
  | [] => 0
  | WorkerStep :: acts' => S (worker_steps acts')
  | _ :: acts' => worker_steps acts'
  end.

Fixpoint language_after (acts : list Action) (lang : option pystr)
  : option pystr :=
  match acts with
  | [] => lang
  | SetLanguage v :: acts' => language_after acts' (stored_language v)
  | _ :: acts' => language_after acts' lang
  end.



(* ================================================================== *)
(** ** Loading the model when the module is imported *)

(** [os.environ], [os.getenv(key, default)] and [os.environ[key] = value]. *)
Definition Environ := string -> option pystr.

Definition getenv (env : Environ) (key : string) (default : pystr) : pystr :=
  match env key with
  | Some v => v
  | None => default
  end.

Definition setenv (env : Environ) (key : string) (value : pystr) : Environ :=
  fun k => if String.eqb k key then Some value else env k.

(** What [whisper.load_model] returns: the model, and what formatting its
    [dims] attribute into the log line gives. *)
Record LoadedModel := {
  model_call : WhisperModel;
  model_dims : res pystr
}.

(** [WHISPER_MODEL], after the [if not WHISPER_MODEL] line. *)
Definition whisper_model_name (env : Environ) : pystr :=
  match getenv env "WHISPER_MODEL" (lit "base") with
  | [] => lit "base"
  | name => name
  end.

(** The [try] block at the end of [whisper_processor.py]: the value left
    in [WhisperProcessor._whisper_model] and the trace of the process.
    The attribute is assigned before the log line is formatted, and the
    handler resets it. *)
Definition load_whisper_model (load_model : pystr -> res LoadedModel)
    (env : Environ) (tr : list Event) : option WhisperModel * list Event :=
  let name := whisper_model_name env in
  let failed (e : exn) :=
    (@None WhisperModel,
     tr ++ [Log ERROR (lit "Failed to load Whisper model: " ++ str_exn e)]) in
  match load_model name with
  | Raise e => failed e
  | Ret loaded =>
      match model_dims loaded with
      | Raise e => failed e
      | Ret dims =>
          (Some (model_call loaded),
           tr ++ [Log INFO (lit "Whisper model '" ++ name
                            ++ lit "' loaded successfully (model info:"
                            ++ dims ++ lit ")")])
      end
  end.

(* ================================================================== *)
(** ** [main.py]: the configuration and the start of the server *)

(** The values the attributes of [AppConfig] take: strings, integers,
    and the one-element tuples the class body starts with. *)
Inductive CfgVal :=
| CStr (s : pystr)
| CInt (n : Z)
| CTuple (l : list CfgVal).

Record AppConfig := {
  host : CfgVal;
  port : CfgVal;
  log_level : CfgVal;
  whisper_model : pystr
}.

(** The class body: [host="0.0.0.0",] and [port=8000,] end in a comma. *)
Definition AppConfig_class : AppConfig :=
  {| host := CTuple [CStr (lit "0.0.0.0")];
     port := CTuple [CInt 8000];
     log_level := CStr (lit "INFO");
     whisper_model := lit "large-v3" |}.

(** The bindings [dotenv] reads from the configuration file. *)
Definition DotenvValues := string -> option pystr.

(** [load_dotenv(path, override=True)]: every binding of the file goes
    into [os.environ], over what is there. *)
Definition load_dotenv (file : DotenvValues) (env : Environ) : Environ :=
  fun k =>
    match file k with
    | Some v => Some v
    | None => env k
    end.

Definition res_bind {A B} (r : res A) (k : A -> res B) : res B :=
  match r with
  | Ret a => k a
  | Raise e => Raise e
  end.

(** [AppConfig.load]; [py_int] is the builtin [int] on a string. *)
Definition AppConfig_load (py_int : pystr -> res Z) (file : DotenvValues)
    (env : Environ) : res (AppConfig * Environ) :=
  let env' := load_dotenv file env in
  let host' := getenv env' "HOST" (lit "0.0.0.0") in
  res_bind (py_int (getenv env' "PORT" (lit "8000"))) (fun port' =>
  let log_level' := getenv env' "LOG_LEVEL" (lit "INFO") in
  let whisper_model' := getenv env' "WHISPER_MODEL" (lit "large-v3") in
  Ret ({| host := CStr host';
          port := CInt port';
          log_level := CStr log_level';
          whisper_model := whisper_model' |}, env')).

(** [AppConfig.save]: four calls of [set_key], which writes to the file
    and to nothing else; [py_str] is the builtin [str]. *)
Definition AppConfig_save (set_key : string -> CfgVal -> res unit)
    (py_str : CfgVal -> pystr) (cfg : AppConfig) : res unit :=
  res_bind (set_key "LOG_LEVEL"%string (log_level cfg)) (fun _ =>
  res_bind (set_key "WHISPER_MODEL"%string (CStr (whisper_model cfg))) (fun _ =>
  res_bind (set_key "HOST"%string (host cfg)) (fun _ =>
  set_key "PORT"%string (CStr (py_str (port cfg)))))).

(** [logging.INFO]. *)
Definition logging_INFO : Z := 20.

(** The top of [main.py] up to the logging set-up: the configuration is
    saved when there is no file and loaded when there is one; the model
    name goes into [os.environ]; [logging.basicConfig] gets the level,
    and [logging.INFO] when it refuses it. [file] is [None] when
    [AppConfig.exists()] is false. *)
Definition main_startup (py_int : pystr -> res Z)
    (set_key : string -> CfgVal -> res unit) (py_str : CfgVal -> pystr)
    (basicConfig : CfgVal -> res unit)
    (file : option DotenvValues) (env : Environ)
  : res (AppConfig * Environ) :=
  res_bind
    (match file with
     | None =>
         res_bind (AppConfig_save set_key py_str AppConfig_class)
           (fun _ => Ret (AppConfig_class, env))
     | Some f => AppConfig_load py_int f env
     end)
    (fun '(cfg, env1) =>
       let env2 := setenv env1 "WHISPER_MODEL" (whisper_model cfg) in
       match basicConfig (log_level cfg) with
       | Ret _ => Ret (cfg, env2)
       | Raise _ =>
           res_bind (basicConfig (CInt logging_INFO)) (fun _ =>
           Ret ({| host := host cfg;
                   port := port cfg;
                   log_level := CInt logging_INFO;
                   whisper_model := whisper_model cfg |}, env2))
       end).

(** Sample inputs for the start of the server. *)
Module StartSample.

(** [int] on the decimal strings used below. *)
Definition int_8000 : pystr -> res Z :=
  fun s =>
    if list_eq_dec N.eq_dec s (lit "8000") then Ret 8000%Z
    else if list_eq_dec N.eq_dec s (lit "9000") then Ret 9000%Z
    else Raise (Exception (lit "invalid literal for int()")).

Definition set_key_ok : string -> CfgVal -> res unit := fun _ _ => Ret tt.
Definition str_any : CfgVal -> pystr := fun _ => lit "(8000,)".
Definition accept_all : CfgVal -> res unit := fun _ => Ret tt.

Definition no_env : Environ := fun _ => None.
Definition env_tiny : Environ := setenv no_env "WHISPER_MODEL" (lit "tiny").

Definition file_small : DotenvValues :=
  fun k => if String.eqb k "WHISPER_MODEL" then Some (lit "small") else None.
Definition file_blank_model : DotenvValues :=
  fun k => if String.eqb k "WHISPER_MODEL" then Some [] else None.

Definition loaded (m : WhisperModel) : LoadedModel :=
  {| model_call := m; model_dims := Ret (lit "dims") |}.
Definition load_ok : pystr -> res LoadedModel :=
  fun _ => Ret (loaded Sample.echo_model).
Definition load_fails : pystr -> res LoadedModel :=
  fun _ => Raise (Exception (lit "no such model")).

End StartSample.

(* ================================================================== *)
(** * Properties *)

(** ** Strings *)

Example strip_ascii : strip (lit "  hello world ") = lit "hello world".
Proof. reflexivity. Qed.

Example strip_ideographic :
  strip [12288; 12371; 12435; 10; 9]%N = [12371; 12435]%N.
Proof. reflexivity. Qed.

Example strip_blank : strip (lit "   ") = [].
Proof. reflexivity. Qed.

Example str_of_Z_120 : str_of_Z 120 = lit "120".
Proof. reflexivity. Qed.

Example str_of_Z_neg : str_of_Z (-7) = lit "-7".
Proof. reflexivity. Qed.

Lemma dropwhile_split (p : N -> bool) (s : pystr) :
  exists pre, s = pre ++ dropwhile p s /\ forallb p pre = true.
Proof.
  induction s as [|c s IH]; simpl.
  - exists []. split; reflexivity.
  - destruct (p c) eqn:Hc.
    + destruct IH as [pre [Heq Hpre]].
      exists (c :: pre). simpl. rewrite Hc, Hpre. split; [f_equal; exact Heq | reflexivity].
    + exists []. split; reflexivity.
Qed.

Lemma dropwhile_head (s : pystr) : no_leading_space (dropwhile isspace s).
Proof.
  induction s as [|c s IH]; simpl.
  - exact I.
  - destruct (isspace c) eqn:Hc; [exact IH | simpl; exact Hc].
Qed.

Lemma forallb_rev (p : N -> bool) (l : pystr) :
  forallb p (rev l) = forallb p l.
Proof.
  induction l as [|c l IH]; simpl.
  - reflexivity.
  - rewrite forallb_app, IH. simpl. rewrite andb_true_r. apply andb_comm.
Qed.

Lemma rstrip_split (s : pystr) :
  exists post, s = rstrip s ++ post /\ forallb isspace post = true.
Proof.
  unfold rstrip.
  destruct (dropwhile_split isspace (rev s)) as [pre [Heq Hpre]].
  exists (rev pre). split.
  - rewrite <- rev_app_distr, <- Heq, rev_involutive. reflexivity.
  - rewrite forallb_rev. exact Hpre.
Qed.

Lemma rstrip_tail (s : pystr) : no_trailing_space (rstrip s).
Proof.
  unfold no_trailing_space, rstrip. rewrite rev_involutive.
  apply dropwhile_head.
Qed.

Lemma no_leading_prefix (s u v : pystr) :
  s = u ++ v -> no_leading_space s -> no_leading_space u.
Proof.
  intros -> H. destruct u as [|c u]; simpl in *; [exact I | exact H].
Qed.

(** [strip] leaves a string with no whitespace at either end, and what it
    removed is whitespace only. *)
Lemma strip_trimmed (s : pystr) : trimmed (strip s).
Proof.
  unfold trimmed, strip. split.
  - destruct (rstrip_split (lstrip s)) as [post [Heq _]].
    eapply no_leading_prefix; [exact Heq | apply dropwhile_head].
  - apply rstrip_tail.
Qed.

Lemma strip_split (s : pystr) :
  exists pre post,
    s = pre ++ strip s ++ post
    /\ forallb isspace pre = true /\ forallb isspace post = true.
Proof.
  unfold strip.
  destruct (dropwhile_split isspace s) as [pre [Heq Hpre]].
  destruct (rstrip_split (lstrip s)) as [post [Heq' Hpost]].
  exists pre, post. repeat split; try assumption.
  unfold lstrip in *. rewrite <- Heq'. exact Heq.
Qed.

(** ** The monadic code against its closed forms *)

Lemma add_trace_nil (s : St) : add_trace s [] = s.
Proof. destruct s. unfold add_trace. simpl. rewrite app_nil_r. reflexivity. Qed.

Lemma add_trace_app (s : St) (a b : list Event) :
  add_trace (add_trace s a) b = add_trace s (a ++ b).
Proof. unfold add_trace. simpl. rewrite app_assoc. reflexivity. Qed.

(** Unfolds the monad and normalises the traces on both sides. *)
Ltac run_monad :=
  cbv [worker_iteration _recognize_audio recognize_async
       run_coroutine_threadsafe future_result transcribe
       try_except bind ret raise call read emit logger_error logger_info
       queue_get queue_put set_thread set_language get_language
       add_trace set_queue iteration_events recognize_events
       recognize_payload delivery_events worker_error_events];
  cbn [_whisper_model _recognition_queue _worker_thread _language trace
       fst snd].

Ltac red_st :=
  cbn [_whisper_model _recognition_queue _worker_thread _language trace
       fst snd].

Ltac trace_eq :=
  red_st; cbn [app];
  repeat rewrite <- app_assoc; cbn [app];
  repeat rewrite app_nil_r;
  try reflexivity.

(** Splits on the next outcome the code waits for. *)
Ltac case_step :=
  red_st;
  match goal with
  | |- context [match ?m ?a (transcribe_options ?l ?p) with _ => _ end] =>
      destruct (m a (transcribe_options l p))
  | |- context [match callback ?t with _ => _ end] => destruct (callback t)
  | |- context [match running_loop ?t with _ => _ end] =>
      destruct (running_loop t)
  | |- context [match cb_call ?c ?p ?a ?b with _ => _ end] =>
      destruct (cb_call c p a b)
  | |- context [match loop_refuses ?l with _ => _ end] =>
      destruct (loop_refuses l)
  | |- context [match ?f 5%Q with _ => _ end] => destruct (f 5%Q)
  | |- context [match ?e with Empty => _ | _ => _ end] => is_var e; destruct e
  end.

Lemma recognize_audio_eq (audio : Audio) (prompt : option pystr) (s : St) :
  _recognize_audio audio prompt s =
  (Ret (recognize_payload (_whisper_model s) (_language s) audio prompt),
   add_trace s
     (recognize_events (_whisper_model s) (_language s) audio prompt)).
Proof.
  destruct s as [cls q th lang tr]. run_monad.
  destruct cls as [m|]; repeat case_step; trace_eq.
Qed.

Lemma worker_iteration_empty (s : St) :
  _recognition_queue s = [] -> worker_iteration s = (Ret Next, s).
Proof. intros H. run_monad. rewrite H. reflexivity. Qed.

Lemma worker_iteration_sentinel (s : St) (rest : list (option Task)) :
  _recognition_queue s = None :: rest ->
  worker_iteration s = (Ret Break, set_queue s rest).
Proof. intros H. run_monad. rewrite H. reflexivity. Qed.

Lemma worker_iteration_task (s : St) (t : Task) (rest : list (option Task)) :
  _recognition_queue s = Some t :: rest ->
  worker_iteration s =
  (Ret Next, add_trace (set_queue s rest) (iteration_events s t)).
Proof.
  intros H. destruct s as [cls q th lang tr]. simpl in H. subst q.
  run_monad.
  destruct cls as [m|]; repeat case_step; trace_eq.
Qed.

Lemma recognize_async_eq (t : Task) (s : St) :
  recognize_async t s =
  (Ret tt,
   add_trace (set_queue s (_recognition_queue s ++ [Some t]))
     [Log INFO (lit "Audio recognition queued for session " ++ session_id t
                ++ lit " (speech: " ++ str_of_Z (speech_id t) ++ lit ")")]).
Proof. reflexivity. Qed.

(** ** Projections of a trace *)

Lemma engine_calls_app (a b : list Event) :
  engine_calls (a ++ b) = engine_calls a ++ engine_calls b.
Proof.
  induction a as [|e a IH]; simpl; [reflexivity | ].
  destruct e; simpl; rewrite IH; reflexivity.
Qed.

Lemma callback_calls_app (a b : list Event) :
  callback_calls (a ++ b) = callback_calls a ++ callback_calls b.
Proof.
  induction a as [|e a IH]; simpl; [reflexivity | ].
  destruct e; simpl; rewrite IH; reflexivity.
Qed.

Lemma scheduled_loops_app (a b : list Event) :
  scheduled_loops (a ++ b) = scheduled_loops a ++ scheduled_loops b.
Proof.
  induction a as [|e a IH]; simpl; [reflexivity | ].
  destruct e; simpl; rewrite IH; reflexivity.
Qed.

Lemma engine_calls_recognize (cls : option WhisperModel) (lang : option pystr)
    (audio : Audio) (prompt : option pystr) :
  engine_calls (recognize_events cls lang audio prompt) =
  match cls with
  | Some _ => [(audio, transcribe_options lang prompt)]
  | None => []
  end.
Proof.
  unfold recognize_events. destruct cls as [m|]; [ | reflexivity].
  destruct (m audio (transcribe_options lang prompt)); reflexivity.
Qed.

Lemma callback_calls_recognize (cls : option WhisperModel)
    (lang : option pystr) (audio : Audio) (prompt : option pystr) :
  callback_calls (recognize_events cls lang audio prompt) = [].
Proof.
  unfold recognize_events. destruct cls as [m|]; [ | reflexivity].
  destruct (m audio (transcribe_options lang prompt)); reflexivity.
Qed.

Lemma scheduled_loops_recognize (cls : option WhisperModel)
    (lang : option pystr) (audio : Audio) (prompt : option pystr) :
  scheduled_loops (recognize_events cls lang audio prompt) = [].
Proof.
  unfold recognize_events. destruct cls as [m|]; [ | reflexivity].
  destruct (m audio (transcribe_options lang prompt)); reflexivity.
Qed.

Lemma engine_calls_worker_error (e : exn) :
  engine_calls (worker_error_events e) = [].
Proof. destruct e; reflexivity. Qed.

Lemma callback_calls_worker_error (e : exn) :
  callback_calls (worker_error_events e) = [].
Proof. destruct e; reflexivity. Qed.

Lemma engine_calls_delivery (t : Task) (payload : Payload) :
  engine_calls (delivery_events t payload) = [].
Proof.
  unfold delivery_events.
  destruct (callback t) as [cb|]; [ | reflexivity].
  destruct (running_loop t) as [loop|]; [ | reflexivity].
  simpl. destruct (cb_call cb payload (session_id t) (speech_id t)) as [fut|e].
  - destruct (loop_refuses loop) as [e|].
    + apply engine_calls_worker_error.
    + simpl. destruct (fut 5%Q); reflexivity.
  - apply engine_calls_worker_error.
Qed.

Lemma callback_calls_delivery (t : Task) (payload : Payload) :
  callback_calls (delivery_events t payload) =
  match callback t, running_loop t with
  | Some cb, Some _ => [(cb_id cb, payload, session_id t, speech_id t)]
  | _, _ => []
  end.
Proof.
  unfold delivery_events.
  destruct (callback t) as [cb|]; [ | reflexivity].
  destruct (running_loop t) as [loop|]; [ | reflexivity].
  simpl. f_equal.
  destruct (cb_call cb payload (session_id t) (speech_id t)) as [fut|e].
  - destruct (loop_refuses loop) as [e|].
    + apply callback_calls_worker_error.
    + simpl. destruct (fut 5%Q); reflexivity.
  - apply callback_calls_worker_error.
Qed.

Lemma engine_calls_iteration (s : St) (t : Task) :
  engine_calls (iteration_events s t) =
  match _whisper_model s with
  | Some _ => [engine_call_of (_language s) t]
  | None => []
  end.
Proof.
  unfold iteration_events.
  rewrite engine_calls_app, engine_calls_recognize, engine_calls_delivery.
  rewrite app_nil_r. reflexivity.
Qed.

Lemma callback_calls_iteration (s : St) (t : Task) :
  callback_calls (iteration_events s t) =
  match callback t, running_loop t with
  | Some cb, Some _ =>
      [(cb_id cb,
        recognize_payload (_whisper_model s) (_language s)
          (audio_data t) (prompt t),
        session_id t, speech_id t)]
  | _, _ => []
  end.
Proof.
  unfold iteration_events.
  rewrite callback_calls_app, callback_calls_recognize, callback_calls_delivery.
  reflexivity.
Qed.

(** ** The engine wrapper *)

Example recognize_success :
  fst (_recognize_audio [1; 2; 3]%Z None (__init__ (Some Sample.echo_model) [])) =
  Ret [ ("text"%string, VStr (lit "konnichiwa"));
        ("language"%string, VStr (lit "en"));
        ("segments"%string,
         VList [ VDict [ ("start"%string, VNum 0);
                         ("end"%string, VNum (1 # 2));
                         ("text"%string, VStr (lit "konnichiwa")) ] ]) ].
Proof. reflexivity. Qed.

Example recognize_failure :
  fst (_recognize_audio [1; 2; 3]%Z None (__init__ (Some Sample.failing_model) [])) =
  Ret [ ("error"%string, VStr (lit "bad audio")) ].
Proof. reflexivity. Qed.

Example recognize_unavailable :
  _recognize_audio [1; 2; 3]%Z None (__init__ None []) =
  (Ret [ ("error"%string, VStr (lit "Whisper model not available")) ],
   __init__ None []).
Proof. reflexivity. Qed.

(** C3. Whatever the audio, the prompt and the state, [_recognize_audio]
    returns a payload and never raises; when the model raises [e], the
    payload is the dict [{"error": str(e)}], whose one item is the message
    of the exception, the failure is logged, and the worker iteration that
    handles such a task goes on to the next one. *)
Theorem recognize_audio_never_raises
    (audio : Audio) (p : option pystr) (s : St) :
  exists payload s',
    _recognize_audio audio p s = (Ret payload, s')
    /\ (forall m e,
          _whisper_model s = Some m ->
          m audio (transcribe_options (_language s) p) = Raise e ->
          payload = [("error"%string, VStr (str_exn e))]
          /\ dict_get "error" payload = Some (VStr (str_exn e))
          /\ dict_keys payload = ["error"%string]
          /\ trace s' =
             trace s ++
             [ Transcribe audio (transcribe_options (_language s) p);
               Log ERROR (lit "Whisper recognition error: " ++ str_exn e) ])
    /\ (forall m msg,
          _whisper_model s = Some m ->
          m audio (transcribe_options (_language s) p)
            = Raise (Exception msg) ->
          payload = [("error"%string, VStr msg)]
          /\ trace s' =
             trace s ++
             [ Transcribe audio (transcribe_options (_language s) p);
               Log ERROR (lit "Whisper recognition error: " ++ msg) ])
    /\ (forall t rest,
          _recognition_queue s = Some t :: rest ->
          fst (worker_iteration s) = Ret Next).
Proof.
  rewrite recognize_audio_eq. eexists. eexists. split; [reflexivity | ].
  split; [ | split].
  - intros m e Hm He. unfold recognize_payload, recognize_events.
    rewrite Hm, He. repeat split.
  - intros m msg Hm He. unfold recognize_payload, recognize_events.
    rewrite Hm, He. split; reflexivity.
  - intros t rest Hq. rewrite (worker_iteration_task s Hq). reflexivity.
Qed.

Lemma recognize_audio_never_raises_witness :
  exists payload s',
    _recognize_audio [1; 2; 3]%Z None (__init__ (Some Sample.failing_model) [])
    = (Ret payload, s')
    /\ payload = [("error"%string, VStr (lit "bad audio"))].
Proof.
  destruct (recognize_audio_never_raises [1; 2; 3]%Z None
              (__init__ (Some Sample.failing_model) []))
    as [payload [s' [Hrun [_ [Hraise _]]]]].
  exists payload, s'. split; [exact Hrun | ].
  apply (Hraise Sample.failing_model (lit "bad audio")); reflexivity.
Defined.

(** C6. The payload [_recognize_audio] returns has the keys [text],
    [language], [segments] and no [error], or the single key [error];
    when the model is not loaded or raises it is the latter, so neither
    [text] nor [segments] is present, and this is the payload the worker
    passes to the callback. *)
Theorem payload_success_xor_error
    (audio : Audio) (p : option pystr) (s : St) :
  exists payload s',
    _recognize_audio audio p s = (Ret payload, s')
    /\ (dict_keys payload = ["text"; "language"; "segments"]%string
        /\ dict_has "error" payload = false
        \/ dict_keys payload = ["error"]%string
           /\ dict_has "text" payload = false
           /\ dict_has "language" payload = false
           /\ dict_has "segments" payload = false)
    /\ (_whisper_model s = None ->
        payload = [("error"%string, VStr (lit "Whisper model not available"))])
    /\ (forall m e,
          _whisper_model s = Some m ->
          m audio (transcribe_options (_language s) p) = Raise e ->
          payload = [("error"%string, VStr (str_exn e))])
    /\ (forall t rest cb loop,
          audio_data t = audio -> prompt t = p ->
          callback t = Some cb -> running_loop t = Some loop ->
          callback_calls
            (trace (snd (worker_iteration (set_queue s (Some t :: rest))))) =
          callback_calls (trace s)
          ++ [(cb_id cb, payload, session_id t, speech_id t)]).
Proof.
  rewrite recognize_audio_eq. eexists. eexists. split; [reflexivity | ].
  repeat split.
  - unfold recognize_payload. destruct (_whisper_model s) as [m|].
    + destruct (m audio (transcribe_options (_language s) p)).
      * left. split; reflexivity.
      * right. repeat split; reflexivity.
    + right. repeat split; reflexivity.
  - intros H. unfold recognize_payload. rewrite H. reflexivity.
  - intros m e Hm He. unfold recognize_payload. rewrite Hm, He. reflexivity.
  - intros t rest cb loop Ha Hp Hcb Hloop.
    rewrite (@worker_iteration_task (set_queue s (Some t :: rest)) t rest eq_refl).
    cbn [snd add_trace trace set_queue]. rewrite callback_calls_app.
    rewrite callback_calls_iteration, Hcb, Hloop, Ha, Hp. reflexivity.
Qed.

Lemma payload_success_xor_error_witness :
  exists payload s',
    _recognize_audio [1; 2; 3]%Z None (__init__ None []) = (Ret payload, s')
    /\ payload = [("error"%string, VStr (lit "Whisper model not available"))].
Proof.
  destruct (payload_success_xor_error [1; 2; 3]%Z None (__init__ None []))
    as [payload [s' [Hrun [_ [Hnone _]]]]].
  exists payload, s'. split; [exact Hrun | apply Hnone; reflexivity].
Defined.

(** C7. When the model returns, the delivered [text] is the model's text
    without the whitespace at its two ends, and the delivered [segments]
    are the model's segments in the same order, each with its offsets
    unchanged and its text without the whitespace at its two ends. *)
Theorem success_payload_is_trimmed
    (audio : Audio) (p : option pystr) (s : St)
    (m : WhisperModel) (result : RawResult) :
  _whisper_model s = Some m ->
  m audio (transcribe_options (_language s) p) = Ret result ->
  exists text segs s',
    _recognize_audio audio p s =
      (Ret [ ("text"%string, VStr text);
             ("language"%string, VStr (raw_language result));
             ("segments"%string, VList segs) ], s')
    /\ trimmed text
    /\ (exists pre post,
          raw_text result = pre ++ text ++ post
          /\ forallb isspace pre = true /\ forallb isspace post = true)
    /\ List.length segs = List.length (raw_segments result)
    /\ (forall i raw,
          nth_error (raw_segments result) i = Some raw ->
          exists txt,
            nth_error segs i =
              Some (VDict [ ("start"%string, VNum (raw_start raw));
                            ("end"%string, VNum (raw_end raw));
                            ("text"%string, VStr txt) ])
            /\ trimmed txt
            /\ exists pre post,
                 raw_seg_text raw = pre ++ txt ++ post
                 /\ forallb isspace pre = true
                 /\ forallb isspace post = true).
Proof.
  intros Hm Hres. rewrite recognize_audio_eq.
  unfold recognize_payload. rewrite Hm, Hres. unfold success_payload.
  eexists. eexists. eexists. split; [reflexivity | ].
  split; [apply strip_trimmed | ].
  split; [apply strip_split | ].
  split; [apply length_map | ].
  intros i raw Hi. exists (strip (raw_seg_text raw)).
  split; [ | split; [apply strip_trimmed | apply strip_split]].
  rewrite nth_error_map, Hi. reflexivity.
Qed.

Lemma success_payload_is_trimmed_witness :
  exists text segs s',
    _recognize_audio [1; 2; 3]%Z None (__init__ (Some Sample.echo_model) []) =
      (Ret [ ("text"%string, VStr text);
             ("language"%string, VStr (lit "en"));
             ("segments"%string, VList segs) ], s')
    /\ trimmed text.
Proof.
  destruct (@success_payload_is_trimmed [1; 2; 3]%Z None
              (__init__ (Some Sample.echo_model) []) Sample.echo_model
              {| raw_text := lit "  konnichiwa ";
                 raw_language := lit "en";
                 raw_segments :=
                   [ {| raw_start := 0; raw_end := 1 # 2;
                        raw_seg_text := lit " konnichiwa" |} ] |}
              eq_refl eq_refl)
    as [text [segs [s' [Hrun [Htrim _]]]]].
  exists text, segs, s'. split; [exact Hrun | exact Htrim].
Defined.

(** ** The guarded factory *)

(** C9. When the model is not loaded, [create] returns no instance and
    leaves the trace of the process as it was: no thread is started. *)
Theorem create_without_model (cls_model : option WhisperModel) (tr : list Event) :
  is_model_loaded cls_model = false ->
  create cls_model tr = (None, tr).
Proof.
  destruct cls_model as [m|]; simpl; [discriminate | reflexivity].
Qed.

Lemma create_without_model_witness :
  is_model_loaded None = false /\ create None [] = (None, []).
Proof.
  split; [reflexivity | apply (@create_without_model None []); reflexivity].
Defined.

Example create_with_model :
  create (Some Sample.echo_model) [] =
  (Some (__init__ (Some Sample.echo_model) []), [ThreadStart]).
Proof. reflexivity. Qed.

(** ** One iteration of the worker *)

Example iteration_delivers :
  trace (snd (worker_iteration
                (set_queue (__init__ (Some Sample.echo_model) [])
                   [Some Sample.t1]))) =
  [ ThreadStart;
    Transcribe [1; 2; 3]%Z (transcribe_options (Some (lit "en")) None);
    CallbackCall 1
      [ ("text"%string, VStr (lit "konnichiwa"));
        ("language"%string, VStr (lit "en"));
        ("segments"%string,
         VList [ VDict [ ("start"%string, VNum 0);
                         ("end"%string, VNum (1 # 2));
                         ("text"%string, VStr (lit "konnichiwa")) ] ]) ]
      (lit "s1") 1%Z;
    Scheduled 0;
    Wait 5 ].
Proof. reflexivity. Qed.

(** C10. A task whose callback or event loop is falsy is transcribed like
    any other, and that is all the iteration does: no callback is called,
    nothing is scheduled, nothing is raised, and the worker goes on. *)
Theorem falsy_callback_discards_result
    (s : St) (t : Task) (rest : list (option Task)) :
  _recognition_queue s = Some t :: rest ->
  callback t = None \/ running_loop t = None ->
  exists payload s',
    _recognize_audio (audio_data t) (prompt t) (set_queue s rest)
      = (Ret payload, s')
    /\ worker_iteration s = (Ret Next, s')
    /\ callback_calls (trace s') = callback_calls (trace s)
    /\ scheduled_loops (trace s') = scheduled_loops (trace s)
    /\ (forall m, _whisper_model s = Some m ->
          engine_calls (trace s') =
          engine_calls (trace s) ++ [engine_call_of (_language s) t])
    /\ _recognition_queue s' = rest
    /\ _worker_thread s' = _worker_thread s.
Proof.
  intros Hq Hfalsy. rewrite recognize_audio_eq, (worker_iteration_task s Hq).
  assert (Hd : forall payload, delivery_events t payload = []).
  { intros payload. unfold delivery_events.
    destruct Hfalsy as [H|H]; rewrite H; [reflexivity | ].
    destruct (callback t); reflexivity. }
  unfold iteration_events. rewrite Hd, app_nil_r.
  eexists. eexists. split; [reflexivity | ].
  split; [reflexivity | ].
  cbn [add_trace set_queue trace _whisper_model _language _recognition_queue
       _worker_thread].
  rewrite callback_calls_app, scheduled_loops_app, engine_calls_app.
  rewrite callback_calls_recognize, scheduled_loops_recognize,
    engine_calls_recognize, !app_nil_r.
  repeat split. intros m Hm. rewrite Hm. reflexivity.
Qed.

Lemma falsy_callback_discards_result_witness :
  exists payload s',
    worker_iteration
      (set_queue (__init__ (Some Sample.echo_model) [])
         [Some (Sample.task 1 None (Some Sample.main_loop))])
    = (Ret Next, s')
    /\ _recognize_audio [1; 2; 3]%Z None (__init__ (Some Sample.echo_model) [])
       = (Ret payload, s')
    /\ callback_calls (trace s') = [].
Proof.
  destruct (@falsy_callback_discards_result
              (set_queue (__init__ (Some Sample.echo_model) [])
                 [Some (Sample.task 1 None (Some Sample.main_loop))])
              (Sample.task 1 None (Some Sample.main_loop)) []
              eq_refl (or_introl eq_refl))
    as [payload [s' [Hrec [Hit [Hcb _]]]]].
  exists payload, s'. split; [exact Hit | ]. split; [exact Hrec | exact Hcb].
Defined.

Example iteration_timeout :
  trace (snd (worker_iteration
                (set_queue (__init__ None [])
                   [Some (Sample.task 1 (Some Sample.cb_slow)
                            (Some Sample.main_loop));
                    Some Sample.t2]))) =
  [ ThreadStart;
    CallbackCall 2
      [("error"%string, VStr (lit "Whisper model not available"))]
      (lit "s1") 1%Z;
    Scheduled 0;
    Wait 5;
    Log ERROR (lit "Failed to send recognition result: ") ].
Proof. reflexivity. Qed.




(** ** The loop and the schedules of a dispatcher *)

Lemma step_worker_empty (s : St) :
  _worker_thread s = Running -> _recognition_queue s = [] ->
  step WorkerStep s = s.
Proof.
  intros Hth Hq. unfold step. rewrite Hth. simpl.
  rewrite (worker_iteration_empty s Hq). reflexivity.
Qed.

Lemma step_worker_task (s : St) (t : Task) (rest : list (option Task)) :
  _worker_thread s = Running -> _recognition_queue s = Some t :: rest ->
  step WorkerStep s = add_trace (set_queue s rest) (iteration_events s t).
Proof.
  intros Hth Hq. unfold step. rewrite Hth. simpl.
  rewrite (worker_iteration_task s Hq). reflexivity.
Qed.

Lemma run_app (a b : list Action) (s : St) :
  run (a ++ b) s = run b (run a s).
Proof.
  revert s. induction a as [|x a IH]; intros s; simpl; [reflexivity | apply IH].
Qed.

Lemma pending_app (q q' : list (option Task)) :
  pending (q ++ q') = pending q ++ pending q'.
Proof.
  induction q as [|[t|] q IH]; simpl; [reflexivity | rewrite IH | exact IH];
    reflexivity.
Qed.

Lemma step_normal (a : Action) (s : St) : normal s -> normal (step a s).
Proof.
  intros [Hth Hq]. destruct a as [t|v|].
  - split; [exact Hth | ]. simpl. rewrite in_app_iff. intros [H|[H|[]]].
    + exact (Hq H).
    + discriminate H.
  - split; assumption.
  - destruct (_recognition_queue s) as [|[t|] rest] eqn:E.
    + rewrite (step_worker_empty s Hth E). split; [exact Hth | rewrite E; exact Hq].
    + rewrite (step_worker_task s Hth E). split; [exact Hth | ].
      simpl. intros H. apply Hq. right. exact H.
    + exfalso. apply Hq. left. reflexivity.
Qed.

Lemma run_normal (acts : list Action) (s : St) : normal s -> normal (run acts s).
Proof.
  revert s. induction acts as [|a acts IH]; intros s H; simpl; [exact H | ].
  apply IH. apply step_normal. exact H.
Qed.

Lemma init_normal (cls : option WhisperModel) (tr : list Event) :
  normal (__init__ cls tr).
Proof. split; [reflexivity | intros []]. Qed.

Lemma worker_loop_returns (fuel : nat) (s : St) :
  exists st s',
    _worker fuel s = (Ret st, s')
    /\ (st = Stopped -> In None (_recognition_queue s)).
Proof.
  revert s. induction fuel as [|fuel IH]; intros s.
  - exists Running, s. split; [reflexivity | discriminate].
  - destruct (_recognition_queue s) as [|[t|] rest] eqn:E; simpl.
    + rewrite (worker_iteration_empty s E).
      destruct (IH s) as [st [s' [Hrun Hst]]]. exists st, s'.
      split; [exact Hrun | ]. intros H. rewrite E in Hst. exact (Hst H).
    + rewrite (worker_iteration_task s E).
      destruct (IH (add_trace (set_queue s rest) (iteration_events s t)))
        as [st [s' [Hrun Hst]]].
      exists st, s'. split; [exact Hrun | ]. intros H. right. exact (Hst H).
    + rewrite (worker_iteration_sentinel s E).
      eexists. eexists. split; [reflexivity | ]. intros _. left. reflexivity.
Qed.

(** C4. An iteration of the worker loop never lets an exception out and
    ends the loop exactly when the item it took is the sentinel; an empty
    poll leaves the state as it was; [recognize_async] puts a task, not
    the sentinel, on the queue; so under any schedule of submissions,
    language changes and worker iterations the thread of a dispatcher
    keeps running, and a loop that did stop had the sentinel in its
    queue. *)
Theorem worker_stops_only_on_sentinel :
  (forall s,
     exists c s',
       worker_iteration s = (Ret c, s')
       /\ (c = Break <-> exists rest, _recognition_queue s = None :: rest))
  /\ (forall s,
        _recognition_queue s = [] -> worker_iteration s = (Ret Next, s))
  /\ (forall t s,
        _recognition_queue (snd (recognize_async t s)) =
        _recognition_queue s ++ [Some t])
  /\ (forall acts cls tr,
        _worker_thread (run acts (__init__ cls tr)) = Running)
  /\ (forall fuel s,
        exists st s',
          _worker fuel s = (Ret st, s')
          /\ (st = Stopped -> In None (_recognition_queue s))).
Proof.
  split; [ | split; [ | split; [ | split]]].
  - intros s. destruct (_recognition_queue s) as [|[t|] rest] eqn:E.
    + rewrite (worker_iteration_empty s E). exists Next, s.
      split; [reflexivity | ]. split; [discriminate | ].
      intros [rest H]. discriminate H.
    + rewrite (worker_iteration_task s E). eexists. eexists.
      split; [reflexivity | ]. split; [discriminate | ].
      intros [rest' H]. discriminate H.
    + rewrite (worker_iteration_sentinel s E). eexists. eexists.
      split; [reflexivity | ]. split; [ | reflexivity].
      intros _. exists rest. reflexivity.
  - exact worker_iteration_empty.
  - intros t s. reflexivity.
  - intros acts cls tr. apply (run_normal acts (init_normal cls tr)).
  - exact worker_loop_returns.
Qed.

Lemma worker_stops_only_on_sentinel_witness :
  worker_iteration (__init__ None []) = (Ret Next, __init__ None []).
Proof.
  destruct worker_stops_only_on_sentinel as [_ [Hempty _]].
  apply Hempty. reflexivity.
Defined.

Example worker_sentinel_stops :
  _worker 5 (set_queue (__init__ None []) [None; Some Sample.t1]) =
  (Ret Stopped,
   {| _whisper_model := None;
      _recognition_queue := [Some Sample.t1];
      _worker_thread := Stopped;
      _language := Some (lit "en");
      trace := [ThreadStart] |}).
Proof. reflexivity. Qed.

Example worker_survives_callback_error :
  _worker 3
    (set_queue (__init__ None [])
       [Some (Sample.task 1
                (Some {| cb_id := 9;
                         cb_call := fun _ _ _ =>
                                      Raise (Exception (lit "not a coroutine")) |})
                (Some Sample.main_loop))]) =
  (Ret Running,
   {| _whisper_model := None;
      _recognition_queue := [];
      _worker_thread := Running;
      _language := Some (lit "en");
      trace :=
        [ ThreadStart;
          CallbackCall 9
            [("error"%string, VStr (lit "Whisper model not available"))]
            (lit "s1") 1%Z;
          Log ERROR (lit "Recognition worker error: not a coroutine") ] |}).
Proof. reflexivity. Qed.

Lemma run_mutations (muts : list Mutation) (s : St) :
  _whisper_model (run (map action_of muts) s) = _whisper_model s
  /\ _recognition_queue (run (map action_of muts) s) =
     _recognition_queue s ++ map Some (msubmitted muts)
  /\ _worker_thread (run (map action_of muts) s) = _worker_thread s
  /\ _language (run (map action_of muts) s) = final_language muts (_language s)
  /\ engine_calls (trace (run (map action_of muts) s)) = engine_calls (trace s)
  /\ callback_calls (trace (run (map action_of muts) s)) =
     callback_calls (trace s).
Proof.
  revert s. induction muts as [|[v|t] muts IH]; intros s.
  - simpl. rewrite app_nil_r. repeat split.
  - destruct (IH (step (SetLanguage v) s)) as [H1 [H2 [H3 [H4 [H5 H6]]]]].
    cbn [map action_of run msubmitted final_language].
    rewrite H1, H2, H3, H4, H5, H6. repeat split.
  - destruct (IH (step (Submit t) s)) as [H1 [H2 [H3 [H4 [H5 H6]]]]].
    cbn [map action_of run msubmitted final_language].
    rewrite H1, H2, H3, H4, H5, H6.
    simpl. rewrite engine_calls_app, callback_calls_app, <- app_assoc.
    simpl. rewrite !app_nil_r. repeat split.
Qed.

Lemma run_submits (ts : list Task) (s : St) :
  _whisper_model (run (map Submit ts) s) = _whisper_model s
  /\ _recognition_queue (run (map Submit ts) s) =
     _recognition_queue s ++ map Some ts
  /\ _worker_thread (run (map Submit ts) s) = _worker_thread s
  /\ _language (run (map Submit ts) s) = _language s
  /\ engine_calls (trace (run (map Submit ts) s)) = engine_calls (trace s).
Proof.
  revert s. induction ts as [|t ts IH]; intros s.
  - simpl. rewrite app_nil_r. repeat split.
  - destruct (IH (step (Submit t) s)) as [H1 [H2 [H3 [H4 H5]]]].
    cbn [map run]. rewrite H1, H2, H3, H4, H5.
    simpl. rewrite engine_calls_app, <- app_assoc.
    simpl. rewrite !app_nil_r. repeat split.
Qed.

(** The engine invocations a run of tasks makes under one language. *)
Lemma run_worker_steps (ts : list Task) (s : St) (q' : list (option Task)) :
  _worker_thread s = Running ->
  _recognition_queue s = map Some ts ++ q' ->
  _whisper_model (run (repeat WorkerStep (List.length ts)) s) = _whisper_model s
  /\ _recognition_queue (run (repeat WorkerStep (List.length ts)) s) = q'
  /\ _worker_thread (run (repeat WorkerStep (List.length ts)) s) = Running
  /\ _language (run (repeat WorkerStep (List.length ts)) s) = _language s
  /\ engine_calls (trace (run (repeat WorkerStep (List.length ts)) s)) =
     engine_calls (trace s)
     ++ match _whisper_model s with
        | Some _ => map (engine_call_of (_language s)) ts
        | None => []
        end.
Proof.
  revert s. induction ts as [|t ts IH]; intros s Hth Hq.
  - simpl in *. repeat split; try assumption.
    destruct (_whisper_model s); rewrite app_nil_r; reflexivity.
  - simpl in Hq. cbn [List.length repeat run].
    rewrite (step_worker_task s Hth Hq).
    destruct (IH (add_trace (set_queue s (map Some ts ++ q'))
                    (iteration_events s t)) Hth eq_refl)
      as [H1 [H2 [H3 [H4 H5]]]].
    rewrite H1, H2, H3, H4, H5.
    cbn [add_trace set_queue _whisper_model _language trace].
    rewrite engine_calls_app, engine_calls_iteration, <- app_assoc.
    repeat split. destruct (_whisper_model s); reflexivity.
Qed.

(** A loop that finds [ts] ahead of the sentinel handles them all, in
    order, and then stops; what lies behind the sentinel stays. *)
Lemma worker_loop_drains (ts : list Task) (k : nat) (s : St)
    (rest : list (option Task)) :
  _recognition_queue s = map Some ts ++ None :: rest ->
  exists s',
    _worker (S (List.length ts) + k) s = (Ret Stopped, s')
    /\ _whisper_model s' = _whisper_model s
    /\ _recognition_queue s' = rest
    /\ _worker_thread s' = Stopped
    /\ _language s' = _language s
    /\ engine_calls (trace s') =
       engine_calls (trace s)
       ++ match _whisper_model s with
          | Some _ => map (engine_call_of (_language s)) ts
          | None => []
          end.
Proof.
  revert s. induction ts as [|t ts IH]; intros s Hq.
  - simpl in Hq. cbn [List.length Nat.add _worker].
    rewrite (worker_iteration_sentinel s Hq).
    eexists. split; [reflexivity | ]. simpl. repeat split.
    destruct (_whisper_model s); rewrite app_nil_r; reflexivity.
  - simpl in Hq. cbn [List.length Nat.add _worker].
    rewrite (worker_iteration_task s Hq).
    destruct (IH (add_trace (set_queue s (map Some ts ++ None :: rest))
                    (iteration_events s t)) eq_refl)
      as [s' [Hrun [H1 [H2 [H3 [H4 H5]]]]]].
    exists s'. split; [exact Hrun | ].
    rewrite H1, H2, H3, H4, H5.
    cbn [add_trace set_queue _whisper_model _language trace].
    rewrite engine_calls_app, engine_calls_iteration, <- app_assoc.
    repeat split. destruct (_whisper_model s); reflexivity.
Qed.

Lemma step_model (a : Action) (s : St) :
  _whisper_model (step a s) = _whisper_model s.
Proof.
  destruct a as [t|v|]; try reflexivity.
  unfold step. destruct (_worker_thread s); [ | reflexivity].
  destruct (_recognition_queue s) as [|[t|] rest] eqn:E; simpl.
  - rewrite (worker_iteration_empty s E). reflexivity.
  - rewrite (worker_iteration_task s E). reflexivity.
  - rewrite (worker_iteration_sentinel s E). reflexivity.
Qed.

Lemma step_fifo (m : WhisperModel) (a : Action) (s : St) :
  _whisper_model s = Some m -> normal s ->
  map request_of_call (engine_calls (trace (step a s)))
  ++ map request_of_task (pending (_recognition_queue (step a s)))
  = map request_of_call (engine_calls (trace s))
    ++ map request_of_task (pending (_recognition_queue s))
    ++ map request_of_task (submitted [a]).
Proof.
  intros Hm [Hth Hq]. destruct a as [t|v|].
  - cbn [step submitted map]. rewrite recognize_async_eq.
    cbn [snd add_trace set_queue trace _recognition_queue].
    rewrite engine_calls_app. cbn [engine_calls]. rewrite app_nil_r.
    rewrite pending_app, map_app. reflexivity.
  - cbn [step submitted map]. rewrite !app_nil_r. reflexivity.
  - cbn [submitted map]. rewrite app_nil_r.
    destruct (_recognition_queue s) as [|[t|] rest] eqn:E.
    + rewrite (step_worker_empty s Hth E), E. reflexivity.
    + rewrite (step_worker_task s Hth E).
      cbn [add_trace set_queue trace _recognition_queue pending map].
      rewrite engine_calls_app, engine_calls_iteration, Hm, map_app.
      rewrite <- app_assoc. reflexivity.
    + exfalso. apply Hq. left. reflexivity.
Qed.

Lemma run_fifo (m : WhisperModel) (acts : list Action) (s : St) :
  _whisper_model s = Some m -> normal s ->
  map request_of_call (engine_calls (trace (run acts s)))
  ++ map request_of_task (pending (_recognition_queue (run acts s)))
  = map request_of_call (engine_calls (trace s))
    ++ map request_of_task (pending (_recognition_queue s))
    ++ map request_of_task (submitted acts).
Proof.
  revert s. induction acts as [|a acts IH]; intros s Hm Hn.
  - simpl. rewrite app_nil_r. reflexivity.
  - cbn [run]. rewrite IH.
    + rewrite app_assoc, (step_fifo a Hm Hn), <- !app_assoc. f_equal. f_equal.
      destruct a; reflexivity.
    + rewrite step_model. exact Hm.
    + apply step_normal. exact Hn.
Qed.

Example two_requests_in_order :
  callback_calls
    (trace (run [Submit Sample.t1; Submit Sample.t2; WorkerStep; WorkerStep]
              (__init__ (Some Sample.failing_model) []))) =
  [ (1, [("error"%string, VStr (lit "bad audio"))], lit "s1", 1%Z);
    (1, [("error"%string, VStr (lit "bad audio"))], lit "s1", 2%Z) ].
Proof. reflexivity. Qed.

(** C5. On a dispatcher whose model is loaded, under any schedule of
    submissions, language changes and worker iterations, the requests the
    engine was invoked for, followed by those still waiting, are the
    requests submitted, in the order of submission; when [N] requests
    were submitted and the worker went [N] times round its loop, the
    engine was invoked exactly [N] times, once per request in that order;
    and a worker that finds requests ahead of the sentinel handles them
    all, in order, before it stops. *)
Theorem fifo_processing (m : WhisperModel) :
  (forall acts,
     map request_of_call
       (engine_calls (trace (run acts (__init__ (Some m) []))))
     ++ map request_of_task
          (pending (_recognition_queue (run acts (__init__ (Some m) []))))
     = map request_of_task (submitted acts))
  /\ (forall ts,
        engine_calls
          (trace (run (map Submit ts ++ repeat WorkerStep (List.length ts))
                    (__init__ (Some m) [])))
        = map (engine_call_of (Some (lit "en"))) ts
        /\ _recognition_queue
             (run (map Submit ts ++ repeat WorkerStep (List.length ts))
                (__init__ (Some m) [])) = [])
  /\ (forall ts rest k s,
        _whisper_model s = Some m ->
        _recognition_queue s = map Some ts ++ None :: rest ->
        exists s',
          _worker (S (List.length ts) + k) s = (Ret Stopped, s')
          /\ engine_calls (trace s') =
             engine_calls (trace s) ++ map (engine_call_of (_language s)) ts
          /\ _recognition_queue s' = rest
          /\ _worker_thread s' = Stopped).
Proof.
  split; [ | split].
  - intros acts.
    rewrite (@run_fifo m acts (__init__ (Some m) []) eq_refl
               (init_normal (Some m) [])).
    reflexivity.
  - intros ts. rewrite run_app.
    destruct (run_submits ts (__init__ (Some m) []))
      as [H1 [H2 [H3 [H4 H5]]]].
    assert (Hq : _recognition_queue (run (map Submit ts) (__init__ (Some m) []))
                 = map Some ts ++ []).
    { rewrite H2, app_nil_r. reflexivity. }
    destruct (@run_worker_steps ts _ [] H3 Hq) as [_ [G2 [_ [_ G5]]]].
    rewrite G5, G2, H1, H4, H5. split; reflexivity.
  - intros ts rest k s Hm Hq.
    destruct (@worker_loop_drains ts k s rest Hq)
      as [s' [Hrun [_ [H2 [H3 [_ H5]]]]]].
    exists s'. rewrite Hm in H5. repeat split; assumption.
Qed.

Lemma fifo_processing_witness :
  exists s',
    _worker 3
      (set_queue (__init__ (Some Sample.echo_model) [])
         [Some Sample.t1; Some Sample.t2; None; Some Sample.t1])
    = (Ret Stopped, s')
    /\ engine_calls (trace s') =
       [ engine_call_of (Some (lit "en")) Sample.t1;
         engine_call_of (Some (lit "en")) Sample.t2 ]
    /\ _recognition_queue s' = [Some Sample.t1]
    /\ _worker_thread s' = Stopped.
Proof.
  destruct (fifo_processing Sample.echo_model) as [_ [_ Hdrain]].
  apply (Hdrain [Sample.t1; Sample.t2] [Some Sample.t1] 0
           (set_queue (__init__ (Some Sample.echo_model) [])
              [Some Sample.t1; Some Sample.t2; None; Some Sample.t1]));
    reflexivity.
Defined.

Lemma process_head (m : WhisperModel) (s : St) (t : Task)
    (rest : list (option Task)) :
  _worker_thread s = Running ->
  _recognition_queue s = Some t :: rest ->
  _whisper_model s = Some m ->
  engine_calls (trace (step WorkerStep s)) =
  engine_calls (trace s) ++ [engine_call_of (_language s) t].
Proof.
  intros Hth Hq Hm. rewrite (step_worker_task s Hth Hq).
  cbn [add_trace trace]. rewrite engine_calls_app, engine_calls_iteration, Hm.
  reflexivity.
Qed.

Lemma engine_calls_init (cls : option WhisperModel) (tr : list Event) :
  engine_calls (trace (__init__ cls tr)) = engine_calls tr.
Proof. simpl. rewrite engine_calls_app. simpl. apply app_nil_r. Qed.

Lemma callback_calls_init (cls : option WhisperModel) (tr : list Event) :
  callback_calls (trace (__init__ cls tr)) = callback_calls tr.
Proof. simpl. rewrite callback_calls_app. simpl. apply app_nil_r. Qed.

(** ** The language of a dispatcher *)

Example language_default :
  _language (__init__ (Some Sample.echo_model) []) = Some (lit "en").
Proof. reflexivity. Qed.

Example language_empty_string :
  _language (step (SetLanguage (Some empty_str))
               (__init__ (Some Sample.echo_model) [])) = None.
Proof. reflexivity. Qed.

(** C1, as stated, fails: on a fresh dispatcher the language is ["en"],
    so a request submitted with no override has the engine invoked with
    [language="en"], while after the empty-string override it is invoked with
    [language=None]; the invocations and the delivered payloads differ. *)
Lemma empty_override_differs_from_no_override :
  engine_calls
    (trace (run [SetLanguage (Some empty_str); Submit Sample.t1; WorkerStep]
              (__init__ (Some Sample.echo_model) [])))
  <> engine_calls
       (trace (run [Submit Sample.t1; WorkerStep]
                 (__init__ (Some Sample.echo_model) [])))
  /\ callback_calls
       (trace (run [SetLanguage (Some empty_str); Submit Sample.t1; WorkerStep]
                 (__init__ (Some Sample.echo_model) [])))
     <> callback_calls
          (trace (run [Submit Sample.t1; WorkerStep]
                    (__init__ (Some Sample.echo_model) [])))
  /\ engine_calls
       (trace (run [Submit Sample.t1; WorkerStep]
                 (__init__ (Some Sample.echo_model) [])))
     = [([1; 2; 3]%Z, transcribe_options (Some (lit "en")) None)].
Proof.
  split; [ | split].
  - vm_compute. intros H. discriminate H.
  - vm_compute. intros H. discriminate H.
  - reflexivity.
Qed.

(** C1, amended. Setting the language to the empty string is the same as
    setting it to [None], whatever the dispatcher does afterwards, and a
    request then submitted has the engine invoked with [language=None],
    that is with automatic detection; on a dispatcher whose language was
    never set the engine is invoked with [language="en"]. *)
Theorem empty_language_is_auto_detection :
  (forall s acts,
     run (SetLanguage (Some empty_str) :: acts) s
     = run (SetLanguage None :: acts) s)
  /\ (forall m tr t,
        engine_calls
          (trace (run [SetLanguage (Some empty_str); Submit t; WorkerStep]
                    (__init__ (Some m) tr)))
        = engine_calls tr
          ++ [(audio_data t, transcribe_options None (prompt t))])
  /\ (forall m tr t,
        engine_calls
          (trace (run [Submit t; WorkerStep] (__init__ (Some m) tr)))
        = engine_calls tr
          ++ [(audio_data t, transcribe_options (Some (lit "en")) (prompt t))]).
Proof.
  split; [ | split].
  - intros s acts. reflexivity.
  - intros m tr t. cbn [run].
    change (step (Submit t)
              (step (SetLanguage (Some empty_str)) (__init__ (Some m) tr)))
      with (run (map action_of [MSetLanguage (Some empty_str); MSubmit t])
              (__init__ (Some m) tr)).
    destruct (run_mutations [MSetLanguage (Some empty_str); MSubmit t]
                (__init__ (Some m) tr)) as [H1 [H2 [H3 [H4 [H5 _]]]]].
    rewrite (@process_head m _ t [] H3 H2 H1), H4, H5, engine_calls_init.
    reflexivity.
  - intros m tr t. cbn [run].
    change (step (Submit t) (__init__ (Some m) tr))
      with (run (map action_of [MSubmit t]) (__init__ (Some m) tr)).
    destruct (run_mutations [MSubmit t] (__init__ (Some m) tr))
      as [H1 [H2 [H3 [H4 [H5 _]]]]].
    rewrite (@process_head m _ t [] H3 H2 H1), H4, H5, engine_calls_init.
    reflexivity.
Qed.

(** C2, as stated, fails: the task carries no language. A request
    submitted while the language is ["en"] is transcribed with ["ja"]
    when the language is set to ["ja"] before the worker takes it. *)
Lemma language_change_reaches_queued_request :
  _language (step (Submit Sample.t1) (__init__ (Some Sample.echo_model) []))
  = Some (lit "en")
  /\ engine_calls
       (trace (run [Submit Sample.t1; SetLanguage (Some (lit "ja")); WorkerStep]
                 (__init__ (Some Sample.echo_model) [])))
     = [([1; 2; 3]%Z, transcribe_options (Some (lit "ja")) None)]
  /\ engine_calls
       (trace (run [Submit Sample.t1; SetLanguage (Some (lit "ja")); WorkerStep]
                 (__init__ (Some Sample.echo_model) [])))
     <> engine_calls
          (trace (run [Submit Sample.t1; WorkerStep]
                    (__init__ (Some Sample.echo_model) []))).
Proof.
  split; [reflexivity | ]. split; [reflexivity | ].
  vm_compute. intros H. discriminate H.
Qed.

Lemma run_schedule (acts : list Action) (s : St) (q : list Task) :
  _worker_thread s = Running ->
  _recognition_queue s = map Some q ->
  worker_steps acts <= List.length q ->
  _whisper_model (run acts s) = _whisper_model s
  /\ _worker_thread (run acts s) = Running
  /\ _recognition_queue (run acts s) =
     map Some (skipn (worker_steps acts) (q ++ submitted acts))
  /\ _language (run acts s) = language_after acts (_language s).
Proof.
  revert s q. induction acts as [|a acts IH]; intros s q Hth Hq Hle.
  - simpl. rewrite app_nil_r. repeat split; assumption.
  - destruct a as [t'|v|]; cbn [run worker_steps submitted language_after].
    + assert (Hq' : _recognition_queue (step (Submit t') s)
                    = map Some (q ++ [t'])).
      { cbn [step]. rewrite recognize_async_eq.
        cbn [snd add_trace set_queue _recognition_queue].
        rewrite Hq, map_app. reflexivity. }
      assert (Hle' : worker_steps acts <= List.length (q ++ [t'])).
      { rewrite length_app. cbn [worker_steps] in Hle. simpl. lia. }
      destruct (IH (step (Submit t') s) (q ++ [t']) Hth Hq' Hle')
        as [H1 [H2 [H3 H4]]].
      rewrite H1, H2, H3, H4, <- app_assoc. repeat split.
    + destruct (IH (step (SetLanguage v) s) q Hth Hq Hle)
        as [H1 [H2 [H3 H4]]].
      rewrite H1, H2, H3, H4. repeat split.
    + cbn [worker_steps] in Hle. destruct q as [|t0 q]; [simpl in Hle; lia | ].
      simpl in Hq. rewrite (step_worker_task s Hth Hq).
      assert (Hle' : worker_steps acts <= List.length q)
        by (simpl in Hle; lia).
      destruct (IH (add_trace (set_queue s (map Some q)) (iteration_events s t0))
                  q Hth eq_refl Hle')
        as [H1 [H2 [H3 H4]]].
      rewrite H1, H2, H3, H4. repeat split.
Qed.

(** C2, amended. A task submitted to a running dispatcher behind the tasks
    [ahead] is at the head of the queue, unchanged, once the worker has
    gone round its loop once per task ahead, whatever language changes
    and further submissions the schedule [acts] holds. The iteration that
    then takes it invokes the engine with the audio and the prompt of the
    task and with the language the dispatcher has at that moment (the one
    stored by the last change in [acts]), calls the callback of the task
    with the result and the session and speech identifiers of the task,
    hands the coroutine to the event loop of the task and to no other,
    and waits on the future that coroutine gave. *)
Theorem task_fields_are_fixed_language_is_not
    (s : St) (ahead : list Task) (t : Task) (acts : list Action) :
  _worker_thread s = Running ->
  _recognition_queue s = map Some ahead ->
  worker_steps acts = List.length ahead ->
  exists payload s_rec,
    let s1 := run (Submit t :: acts) s in
    let s2 := run (Submit t :: acts ++ [WorkerStep]) s in
    _recognition_queue s1 = Some t :: map Some (submitted acts)
    /\ _language s1 = language_after acts (_language s)
    /\ _recognize_audio (audio_data t) (prompt t)
         (set_queue s1 (map Some (submitted acts))) = (Ret payload, s_rec)
    /\ (forall m,
          _whisper_model s = Some m ->
          engine_calls (trace s2) =
          engine_calls (trace s1)
          ++ [(audio_data t,
               transcribe_options (language_after acts (_language s))
                 (prompt t))])
    /\ (callback t = None \/ running_loop t = None -> s2 = s_rec)
    /\ (forall cb loop,
          callback t = Some cb -> running_loop t = Some loop ->
          callback_calls (trace s2) =
          callback_calls (trace s1)
          ++ [(cb_id cb, payload, session_id t, speech_id t)]
          /\ (scheduled_loops (trace s2) = scheduled_loops (trace s1)
              \/ scheduled_loops (trace s2) =
                 scheduled_loops (trace s1) ++ [loop_id loop])
          /\ (forall future,
                cb_call cb payload (session_id t) (speech_id t) = Ret future ->
                loop_refuses loop = None ->
                trace s2 =
                trace s_rec
                ++ [ CallbackCall (cb_id cb) payload (session_id t)
                       (speech_id t);
                     Scheduled (loop_id loop);
                     Wait 5 ]
                ++ match future 5%Q with
                   | Ret _ => []
                   | Raise e =>
                       [Log ERROR (lit "Failed to send recognition result: "
                                   ++ str_exn e)]
                   end)).
Proof.
  intros Hth Hq Hsteps.
  assert (Hq0 : _recognition_queue (step (Submit t) s)
                = map Some (ahead ++ [t])).
  { cbn [step]. rewrite recognize_async_eq.
    cbn [snd add_trace set_queue _recognition_queue].
    rewrite Hq, map_app. reflexivity. }
  assert (Hle : worker_steps acts <= List.length (ahead ++ [t])).
  { rewrite length_app, Hsteps. simpl. lia. }
  destruct (run_schedule acts (step (Submit t) s) (ahead ++ [t]) Hth Hq0 Hle)
    as [H1 [H2 [H3 H4]]].
  assert (Hhead : _recognition_queue (run (Submit t :: acts) s)
                  = Some t :: map Some (submitted acts)).
  { cbn [run]. rewrite H3, Hsteps, <- app_assoc, skipn_app, skipn_all.
    rewrite Nat.sub_diag. reflexivity. }
  assert (Hstep : run (Submit t :: acts ++ [WorkerStep]) s
                  = add_trace
                      (set_queue (run (Submit t :: acts) s)
                         (map Some (submitted acts)))
                      (iteration_events (run (Submit t :: acts) s) t)).
  { change (Submit t :: acts ++ [WorkerStep])
      with ((Submit t :: acts) ++ [WorkerStep]).
    rewrite run_app.
    change (run [WorkerStep] (run (Submit t :: acts) s))
      with (step WorkerStep (run (Submit t :: acts) s)).
    apply step_worker_task; [exact H2 | exact Hhead]. }
  eexists. eexists. cbv zeta.
  split; [exact Hhead | ].
  split; [exact H4 | ].
  split; [apply recognize_audio_eq | ].
  assert (Hm1 : _whisper_model (run (Submit t :: acts) s) = _whisper_model s)
    by exact H1.
  assert (Hl1 : _language (run (Submit t :: acts) s)
                = language_after acts (_language s)) by exact H4.
  rewrite Hstep.
  cbn [add_trace set_queue trace _whisper_model _language].
  unfold iteration_events.
  split; [ | split].
  - intros m Hm. rewrite engine_calls_app, engine_calls_app.
    rewrite engine_calls_recognize, engine_calls_delivery, Hm1, Hm, Hl1.
    rewrite app_nil_r. reflexivity.
  - intros Hfalsy.
    assert (Hd : forall r, delivery_events t r = []).
    { intros r. unfold delivery_events.
      destruct Hfalsy as [H|H]; rewrite H; [reflexivity | ].
      destruct (callback t); reflexivity. }
    rewrite Hd, app_nil_r. reflexivity.
  - intros cb loop Hcb Hloop. split; [ | split].
    + rewrite !callback_calls_app, callback_calls_recognize.
      rewrite callback_calls_delivery, Hcb, Hloop. reflexivity.
    + rewrite !scheduled_loops_app, scheduled_loops_recognize.
      unfold delivery_events. rewrite Hcb, Hloop.
      cbn [app scheduled_loops].
      destruct (cb_call cb _ (session_id t) (speech_id t)) as [fut|e].
      * destruct (loop_refuses loop) as [e|].
        -- left. destruct e; simpl; rewrite app_nil_r; reflexivity.
        -- right. cbn [scheduled_loops].
           destruct (fut 5%Q); reflexivity.
      * left. destruct e; simpl; rewrite app_nil_r; reflexivity.
    + intros future Hcall Hacc. unfold delivery_events.
      rewrite Hcb, Hloop, Hcall, Hacc. rewrite <- app_assoc. reflexivity.
Qed.

Lemma task_fields_are_fixed_language_is_not_witness :
  exists payload s_rec,
    _recognition_queue
      (run [Submit Sample.t2; SetLanguage (Some (lit "ja")); WorkerStep]
         (set_queue (__init__ (Some Sample.echo_model) []) [Some Sample.t1]))
    = [Some Sample.t2]
    /\ _recognize_audio [2; 2; 3]%Z None
         (set_queue
            (run [Submit Sample.t2; SetLanguage (Some (lit "ja")); WorkerStep]
               (set_queue (__init__ (Some Sample.echo_model) [])
                  [Some Sample.t1])) [])
       = (Ret payload, s_rec)
    /\ engine_calls
         (trace
            (run [Submit Sample.t2; SetLanguage (Some (lit "ja"));
                  WorkerStep; WorkerStep]
               (set_queue (__init__ (Some Sample.echo_model) [])
                  [Some Sample.t1])))
       = engine_calls
           (trace
              (run [Submit Sample.t2; SetLanguage (Some (lit "ja")); WorkerStep]
                 (set_queue (__init__ (Some Sample.echo_model) [])
                    [Some Sample.t1])))
         ++ [([2; 2; 3]%Z, transcribe_options (Some (lit "ja")) None)].
Proof.
  destruct (@task_fields_are_fixed_language_is_not
              (set_queue (__init__ (Some Sample.echo_model) []) [Some Sample.t1])
              [Sample.t1] Sample.t2
              [SetLanguage (Some (lit "ja")); WorkerStep]
              eq_refl eq_refl eq_refl)
    as [payload [s_rec [Hq [_ [Hrec [Heng _]]]]]].
  exists payload, s_rec. split; [exact Hq | ]. split; [exact Hrec | ].
  exact (Heng Sample.echo_model eq_refl).
Defined.

Example processed_behind_another :
  scheduled_loops
    (trace
       (run [Submit (Sample.task 2 (Some Sample.cb_ok)
                       (Some {| loop_id := 4; loop_refuses := None |}));
             WorkerStep; WorkerStep]
          (set_queue (__init__ (Some Sample.echo_model) [])
             [Some Sample.t1]))) = [0; 4].
Proof. reflexivity. Qed.

Example three_languages :
  final_language
    [MSetLanguage (Some (lit "ja")); MSubmit Sample.t2; MSetLanguage (Some [])]
    (Some (lit "en")) = None.
Proof. reflexivity. Qed.

(* ================================================================== *)
(** * Further properties of the dispatcher *)

Lemma step_worker_cases (s : St) :
  step WorkerStep s =
  match _worker_thread s with
  | Stopped => s
  | Running =>
      match _recognition_queue s with
      | [] => s
      | None :: rest => stop_thread (set_queue s rest)
      | Some t :: rest => add_trace (set_queue s rest) (iteration_events s t)
      end
  end.
Proof.
  unfold step. destruct (_worker_thread s); [ | reflexivity].
  destruct (_recognition_queue s) as [|[t|] rest] eqn:E; simpl.
  - rewrite (worker_iteration_empty s E). reflexivity.
  - rewrite (worker_iteration_task s E). reflexivity.
  - rewrite (worker_iteration_sentinel s E). reflexivity.
Qed.

Lemma step_language (a : Action) (s : St) :
  _language (step a s) =
  match a with
  | SetLanguage v => stored_language v
  | _ => _language s
  end.
Proof.
  destruct a as [t|v|]; try reflexivity.
  rewrite step_worker_cases. destruct (_worker_thread s); [ | reflexivity].
  destruct (_recognition_queue s) as [|[t|] rest]; reflexivity.
Qed.

Lemma stored_language_not_empty (v : option pystr) :
  stored_language v <> Some empty_str.
Proof. destruct v as [[|c v]|]; simpl; discriminate. Qed.

Lemma run_language_not_empty (acts : list Action) (s : St) :
  _language s <> Some empty_str -> _language (run acts s) <> Some empty_str.
Proof.
  revert s. induction acts as [|a acts IH]; intros s H; simpl; [exact H | ].
  apply IH. rewrite step_language. destruct a; try exact H.
  apply stored_language_not_empty.
Qed.

(** X1. The language of a dispatcher is never the empty string: it starts
    as ["en"], and what the setter stores, and the getter then returns,
    is the value given, or [None] when the value is the empty string. *)
Theorem language_is_never_empty_string :
  (forall acts cls tr,
     _language (run acts (__init__ cls tr)) <> Some empty_str)
  /\ (forall v s,
        fst (get_language (snd (set_language v s))) = Ret (stored_language v)
        /\ stored_language v <> Some empty_str
        /\ (v <> Some empty_str -> stored_language v = v)).
Proof.
  split.
  - intros acts cls tr. apply run_language_not_empty. simpl. discriminate.
  - intros v s. split; [reflexivity | ].
    split; [apply stored_language_not_empty | ].
    intros Hv. destruct v as [[|c v]|]; try reflexivity.
    exfalso. apply Hv. reflexivity.
Qed.

Lemma language_is_never_empty_string_witness :
  stored_language (Some (lit "ja")) = Some (lit "ja").
Proof.
  destruct language_is_never_empty_string as [_ H].
  destruct (H (Some (lit "ja")) (__init__ None [])) as [_ [_ Hkeep]].
  apply Hkeep. discriminate.
Defined.

(** ** Deliveries *)

Lemma step_deliveries (a : Action) (s : St) :
  normal s ->
  map delivery_of_call (callback_calls (trace (step a s)))
  ++ flat_map delivery_of_task (pending (_recognition_queue (step a s)))
  = map delivery_of_call (callback_calls (trace s))
    ++ flat_map delivery_of_task (pending (_recognition_queue s))
    ++ flat_map delivery_of_task (submitted [a]).
Proof.
  intros [Hth Hq]. destruct a as [t|v|].
  - cbn [step submitted]. rewrite recognize_async_eq.
    cbn [snd add_trace set_queue trace _recognition_queue].
    rewrite callback_calls_app. cbn [callback_calls]. rewrite app_nil_r.
    rewrite pending_app, flat_map_app. reflexivity.
  - cbn [step submitted flat_map]. rewrite !app_nil_r. reflexivity.
  - cbn [submitted flat_map]. rewrite app_nil_r.
    rewrite step_worker_cases, Hth.
    destruct (_recognition_queue s) as [|[t|] rest] eqn:E.
    + rewrite E. reflexivity.
    + cbn [add_trace set_queue trace _recognition_queue pending flat_map].
      rewrite callback_calls_app, callback_calls_iteration, map_app.
      rewrite <- app_assoc. f_equal. f_equal.
      unfold delivery_of_task.
      destruct (callback t); [ | reflexivity].
      destruct (running_loop t); reflexivity.
    + exfalso. apply Hq. left. reflexivity.
Qed.

Lemma run_deliveries (acts : list Action) (s : St) :
  normal s ->
  map delivery_of_call (callback_calls (trace (run acts s)))
  ++ flat_map delivery_of_task (pending (_recognition_queue (run acts s)))
  = map delivery_of_call (callback_calls (trace s))
    ++ flat_map delivery_of_task (pending (_recognition_queue s))
    ++ flat_map delivery_of_task (submitted acts).
Proof.
  revert s. induction acts as [|a acts IH]; intros s Hn.
  - simpl. rewrite app_nil_r. reflexivity.
  - cbn [run]. rewrite IH by (apply step_normal; exact Hn).
    rewrite app_assoc, (step_deliveries a Hn), <- !app_assoc. f_equal. f_equal.
    destruct a; cbn [submitted flat_map]; rewrite ?app_nil_r; reflexivity.
Qed.

(** X2. Under any schedule of submissions, language changes and worker
    iterations on a fresh dispatcher, with or without a model, the
    callbacks called so far, followed by the deliveries still owed to the
    tasks in the queue, are the deliveries of the tasks submitted, in the
    order of submission: a callback is called once per task, never twice,
    never out of order, and never for a task whose callback or loop is
    falsy. *)
Theorem callbacks_once_in_submission_order
    (cls : option WhisperModel) (acts : list Action) :
  map delivery_of_call
    (callback_calls (trace (run acts (__init__ cls []))))
  ++ flat_map delivery_of_task
       (pending (_recognition_queue (run acts (__init__ cls []))))
  = flat_map delivery_of_task (submitted acts).
Proof.
  rewrite (run_deliveries acts (init_normal cls [])). reflexivity.
Qed.

Example deliveries_so_far :
  map delivery_of_call
    (callback_calls
       (trace (run [ Submit Sample.t1;
                     Submit (Sample.task 7 None (Some Sample.main_loop));
                     WorkerStep; Submit Sample.t2; WorkerStep ]
                 (__init__ None [])))) = [(1, lit "s1", 1%Z)].
Proof. reflexivity. Qed.

(** X3. Once the worker thread has stopped, nothing submitted is ever
    processed: under any later schedule the thread stays stopped, the
    engine is not invoked, no callback is called, and the submissions
    only lengthen the queue. *)
Theorem stopped_worker_processes_nothing (acts : list Action) (s : St) :
  _worker_thread s = Stopped ->
  _worker_thread (run acts s) = Stopped
  /\ engine_calls (trace (run acts s)) = engine_calls (trace s)
  /\ callback_calls (trace (run acts s)) = callback_calls (trace s)
  /\ _recognition_queue (run acts s) =
     _recognition_queue s ++ map Some (submitted acts).
Proof.
  revert s. induction acts as [|a acts IH]; intros s Hth.
  - simpl. rewrite app_nil_r. repeat split. exact Hth.
  - cbn [run]. destruct a as [t|v|].
    + destruct (IH (step (Submit t) s) Hth) as [H1 [H2 [H3 H4]]].
      rewrite H1, H2, H3, H4. cbn [step submitted map]. rewrite recognize_async_eq.
      cbn [snd add_trace set_queue trace _recognition_queue].
      rewrite engine_calls_app, callback_calls_app, <- app_assoc.
      cbn [engine_calls callback_calls app]. rewrite !app_nil_r.
      repeat split.
    + destruct (IH (step (SetLanguage v) s) Hth) as [H1 [H2 [H3 H4]]].
      rewrite H1, H2, H3, H4. repeat split.
    + rewrite step_worker_cases, Hth. cbn [submitted]. apply IH. exact Hth.
Qed.

Lemma stopped_worker_processes_nothing_witness :
  engine_calls
    (trace (run [Submit Sample.t1; WorkerStep; WorkerStep]
              (stop_thread (__init__ (Some Sample.echo_model) [])))) = []
  /\ _recognition_queue
       (run [Submit Sample.t1; WorkerStep; WorkerStep]
          (stop_thread (__init__ (Some Sample.echo_model) [])))
     = [Some Sample.t1].
Proof.
  destruct (@stopped_worker_processes_nothing
              [Submit Sample.t1; WorkerStep; WorkerStep]
              (stop_thread (__init__ (Some Sample.echo_model) [])) eq_refl)
    as [_ [He [_ Hq]]].
  split; [exact He | exact Hq].
Defined.

Lemma worker_idle (k : nat) (s : St) :
  _recognition_queue s = [] -> _worker k s = (Ret Running, s).
Proof.
  intros Hq. induction k as [|k IH]; [reflexivity | ].
  cbn [_worker]. rewrite (worker_iteration_empty s Hq). exact IH.
Qed.

(** X4. A poll that finds the queue empty changes nothing: a loop given
    more iterations than there are tasks in the queue ends in the same
    state as one given exactly that many, still running and with an
    empty queue. *)
Theorem idle_polls_change_nothing (ts : list Task) (s : St) :
  _recognition_queue s = map Some ts ->
  exists s',
    _recognition_queue s' = []
    /\ forall k, _worker (List.length ts + k) s = (Ret Running, s').
Proof.
  revert s. induction ts as [|t ts IH]; intros s Hq.
  - exists s. split; [exact Hq | ]. intros k. apply worker_idle. exact Hq.
  - simpl in Hq.
    destruct (IH (add_trace (set_queue s (map Some ts)) (iteration_events s t))
                eq_refl) as [s' [Hq' Hrun]].
    exists s'. split; [exact Hq' | ]. intros k.
    cbn [List.length Nat.add _worker].
    rewrite (worker_iteration_task s Hq). apply Hrun.
Qed.

Lemma idle_polls_change_nothing_witness :
  exists s',
    _recognition_queue s' = []
    /\ _worker 1 (set_queue (__init__ None []) [Some Sample.t1])
       = (Ret Running, s')
    /\ _worker 9 (set_queue (__init__ None []) [Some Sample.t1])
       = (Ret Running, s').
Proof.
  destruct (@idle_polls_change_nothing [Sample.t1]
              (set_queue (__init__ None []) [Some Sample.t1]) eq_refl)
    as [s' [Hq Hrun]].
  exists s'. split; [exact Hq | ]. split; [apply (Hrun 0) | apply (Hrun 8)].
Defined.

(** ** What every engine invocation and every delivery look like *)

Lemma step_engine_calls (a : Action) (s : St) :
  exists new,
    engine_calls (trace (step a s)) = engine_calls (trace s) ++ new
    /\ (new = []
        \/ exists t m,
             _whisper_model s = Some m
             /\ new = [engine_call_of (_language s) t]).
Proof.
  destruct a as [t|v|].
  - exists []. split; [ | left; reflexivity].
    cbn [step]. rewrite recognize_async_eq.
    cbn [snd add_trace set_queue trace]. rewrite engine_calls_app. reflexivity.
  - exists []. split; [ | left; reflexivity]. rewrite app_nil_r. reflexivity.
  - rewrite step_worker_cases.
    destruct (_worker_thread s);
      [ | exists []; split; [rewrite app_nil_r; reflexivity | left; reflexivity]].
    destruct (_recognition_queue s) as [|[t|] rest];
      try (exists []; split; [rewrite app_nil_r; reflexivity | left; reflexivity]).
    cbn [add_trace set_queue trace].
    rewrite engine_calls_app, engine_calls_iteration.
    destruct (_whisper_model s) as [m|].
    + eexists. split; [reflexivity | ]. right. exists t, m.
      split; reflexivity.
    + exists []. split; [reflexivity | left; reflexivity].
Qed.

Lemma step_callback_calls (a : Action) (s : St) :
  exists new,
    callback_calls (trace (step a s)) = callback_calls (trace s) ++ new
    /\ (new = []
        \/ exists t cb,
             new = [(cb_id cb,
                     recognize_payload (_whisper_model s) (_language s)
                       (audio_data t) (prompt t),
                     session_id t, speech_id t)]).
Proof.
  destruct a as [t|v|].
  - exists []. split; [ | left; reflexivity].
    cbn [step]. rewrite recognize_async_eq.
    cbn [snd add_trace set_queue trace]. rewrite callback_calls_app. reflexivity.
  - exists []. split; [ | left; reflexivity]. rewrite app_nil_r. reflexivity.
  - rewrite step_worker_cases.
    destruct (_worker_thread s);
      [ | exists []; split; [rewrite app_nil_r; reflexivity | left; reflexivity]].
    destruct (_recognition_queue s) as [|[t|] rest];
      try (exists []; split; [rewrite app_nil_r; reflexivity | left; reflexivity]).
    cbn [add_trace set_queue trace].
    rewrite callback_calls_app, callback_calls_iteration.
    destruct (callback t) as [cb|];
      [ | exists []; split; [reflexivity | left; reflexivity]].
    destruct (running_loop t);
      [ | exists []; split; [reflexivity | left; reflexivity]].
    eexists. split; [reflexivity | ]. right. exists t, cb. reflexivity.
Qed.

Lemma run_engine_calls_policy (acts : list Action) (s : St) :
  _language s <> Some empty_str ->
  exists new,
    engine_calls (trace (run acts s)) = engine_calls (trace s) ++ new
    /\ Forall (fun c => fixed_policy (snd c)
                        /\ language (snd c) <> Some empty_str) new.
Proof.
  revert s. induction acts as [|a acts IH]; intros s Hlang.
  - exists []. split; [simpl; rewrite app_nil_r; reflexivity | constructor].
  - cbn [run].
    assert (Hlang' : _language (step a s) <> Some empty_str).
    { rewrite step_language. destruct a; try exact Hlang.
      apply stored_language_not_empty. }
    destruct (IH (step a s) Hlang') as [new2 [Heq2 Hall2]].
    destruct (step_engine_calls a s) as [new1 [Heq1 Hnew1]].
    exists (new1 ++ new2). split.
    + rewrite Heq2, Heq1, app_assoc. reflexivity.
    + apply Forall_app. split; [ | exact Hall2].
      destruct Hnew1 as [-> | [t [m [_ ->]]]]; constructor; [ | constructor].
      split; [reflexivity | exact Hlang].
Qed.

(** X5. Every engine invocation a dispatcher ever makes uses the decoding
    arguments written in [_recognize_audio]: [fp16] and [verbose] off, a
    no-speech threshold of 0.05, no conditioning on previous text, a
    compression-ratio threshold of 2.4, patience 1, beam size 5 and
    temperature 0; invocations differ in the language and the prompt
    only, and the language is never the empty string. *)
Theorem every_invocation_uses_the_fixed_policy
    (acts : list Action) (cls : option WhisperModel) (tr : list Event) :
  exists new,
    engine_calls (trace (run acts (__init__ cls tr))) = engine_calls tr ++ new
    /\ Forall
         (fun c =>
            fixed_policy (snd c)
            /\ language (snd c) <> Some empty_str
            /\ fp16 (snd c) = false
            /\ verbose (snd c) = false
            /\ no_speech_threshold (snd c) = (5 # 100)%Q
            /\ condition_on_previous_text (snd c) = false
            /\ compression_ratio_threshold (snd c) = (24 # 10)%Q
            /\ patience (snd c) = 1%Q
            /\ beam_size (snd c) = 5%Z
            /\ temperature (snd c) = 0%Q) new.
Proof.
  assert (Hlang : _language (__init__ cls tr) <> Some empty_str)
    by (simpl; discriminate).
  destruct (run_engine_calls_policy acts (__init__ cls tr) Hlang)
    as [new [Heq Hall]].
  exists new. split; [rewrite Heq, engine_calls_init; reflexivity | ].
  eapply Forall_impl; [ | exact Hall].
  intros [a o] [Hfix Hl]. cbn [snd] in *. unfold fixed_policy in Hfix.
  split; [exact Hfix | ]. split; [exact Hl | ].
  rewrite Hfix. repeat split.
Qed.

Lemma run_unavailable (acts : list Action) (s : St) :
  _whisper_model s = None ->
  engine_calls (trace (run acts s)) = engine_calls (trace s)
  /\ exists new,
       callback_calls (trace (run acts s)) = callback_calls (trace s) ++ new
       /\ Forall
            (fun c => payload_of_call c =
                      error_payload (lit "Whisper model not available")) new.
Proof.
  revert s. induction acts as [|a acts IH]; intros s Hm.
  - split; [reflexivity | ]. exists []. split; [ | constructor].
    simpl. rewrite app_nil_r. reflexivity.
  - cbn [run].
    assert (Hm' : _whisper_model (step a s) = None)
      by (rewrite step_model; exact Hm).
    destruct (IH (step a s) Hm') as [He [new2 [Heq2 Hall2]]].
    destruct (step_engine_calls a s) as [ne [Hne Hcase]].
    destruct (step_callback_calls a s) as [new1 [Heq1 Hnew1]].
    split.
    + rewrite He, Hne.
      destruct Hcase as [-> | [t [m [Hsome _]]]]; [apply app_nil_r | ].
      rewrite Hm in Hsome. discriminate Hsome.
    + exists (new1 ++ new2). split.
      * rewrite Heq2, Heq1, app_assoc. reflexivity.
      * apply Forall_app. split; [ | exact Hall2].
        destruct Hnew1 as [-> | [t [cb ->]]]; constructor; [ | constructor].
        rewrite Hm. reflexivity.
Qed.

(** X6. A dispatcher built while no model is loaded never invokes an
    engine, whatever is submitted to it, and every payload it hands to a
    callback is [{"error": "Whisper model not available"}]. *)
Theorem unavailable_model_only_reports_the_error
    (acts : list Action) (tr : list Event) :
  engine_calls (trace (run acts (__init__ None tr))) = engine_calls tr
  /\ exists new,
       callback_calls (trace (run acts (__init__ None tr)))
       = callback_calls tr ++ new
       /\ Forall
            (fun c => payload_of_call c =
                      [("error"%string,
                        VStr (lit "Whisper model not available"))]) new.
Proof.
  destruct (@run_unavailable acts (__init__ None tr) eq_refl)
    as [He [new [Heq Hall]]].
  split; [rewrite He; apply engine_calls_init | ].
  exists new. split; [rewrite Heq, callback_calls_init; reflexivity | exact Hall].
Qed.

(** X7. When calling the callback raises, or the event loop refuses the
    coroutine, the worker waits for nothing: the iteration ends normally
    with the task gone from the queue, the exception in an error record
    of the worker, and, when it is the callback that raised, nothing
    scheduled. The one exception left out of the log is [queue.Empty],
    which the loop takes for an empty poll whoever raised it. *)
Theorem failed_scheduling_is_logged_unless_queue_empty
    (s s1 : St) (t : Task) (rest : list (option Task))
    (cb : Callback) (loop : EventLoop) (payload : Payload) (e : exn) :
  _recognition_queue s = Some t :: rest ->
  callback t = Some cb ->
  running_loop t = Some loop ->
  _recognize_audio (audio_data t) (prompt t) (set_queue s rest)
    = (Ret payload, s1) ->
  cb_call cb payload (session_id t) (speech_id t) = Raise e
  \/ (exists future,
        cb_call cb payload (session_id t) (speech_id t) = Ret future)
     /\ loop_refuses loop = Some e ->
  exists s',
    worker_iteration s = (Ret Next, s')
    /\ trace s' =
       trace s1
       ++ CallbackCall (cb_id cb) payload (session_id t) (speech_id t)
          :: match e with
             | Empty => []
             | _ => [Log ERROR (lit "Recognition worker error: " ++ str_exn e)]
             end
    /\ scheduled_loops (trace s') = scheduled_loops (trace s)
    /\ _recognition_queue s' = rest
    /\ _worker_thread s' = _worker_thread s.
Proof.
  intros Hq Hcb Hloop Hrec Hfail.
  rewrite recognize_audio_eq in Hrec.
  cbn [set_queue _whisper_model _language] in Hrec.
  injection Hrec as Hpay Hs1.
  rewrite (worker_iteration_task s Hq). eexists. split; [reflexivity | ].
  assert (Hdel : delivery_events t payload =
                 CallbackCall (cb_id cb) payload (session_id t) (speech_id t)
                 :: worker_error_events e).
  { unfold delivery_events. rewrite Hcb, Hloop.
    destruct Hfail as [Hraise | [[future Hret] Hrefuse]].
    - rewrite Hraise. reflexivity.
    - rewrite Hret, Hrefuse. reflexivity. }
  unfold iteration_events. rewrite Hpay, Hdel. subst s1.
  cbn [add_trace set_queue trace _recognition_queue _worker_thread
       _whisper_model _language].
  rewrite <- !app_assoc. split; [destruct e; reflexivity | ].
  split; [ | split; reflexivity].
  rewrite !scheduled_loops_app, scheduled_loops_recognize.
  destruct e; cbn [scheduled_loops worker_error_events app];
    rewrite ?app_nil_r; reflexivity.
Qed.

Lemma failed_scheduling_is_logged_unless_queue_empty_witness :
  exists s',
    worker_iteration
      (set_queue (__init__ None [])
         [Some (Sample.task 1
                  (Some {| cb_id := 3; cb_call := fun _ _ _ => Raise Empty |})
                  (Some Sample.main_loop))])
    = (Ret Next, s')
    /\ trace s' =
       [ ThreadStart;
         CallbackCall 3
           [("error"%string, VStr (lit "Whisper model not available"))]
           (lit "s1") 1%Z ].
Proof.
  destruct (@failed_scheduling_is_logged_unless_queue_empty
              (set_queue (__init__ None [])
                 [Some (Sample.task 1
                          (Some {| cb_id := 3;
                                   cb_call := fun _ _ _ => Raise Empty |})
                          (Some Sample.main_loop))])
              (__init__ None [])
              (Sample.task 1
                 (Some {| cb_id := 3; cb_call := fun _ _ _ => Raise Empty |})
                 (Some Sample.main_loop))
              [] {| cb_id := 3; cb_call := fun _ _ _ => Raise Empty |}
              Sample.main_loop
              [("error"%string, VStr (lit "Whisper model not available"))]
              Empty eq_refl eq_refl eq_refl eq_refl (or_introl eq_refl))
    as [s' [Hrun [Htr _]]].
  exists s'. split; [exact Hrun | exact Htr].
Defined.

(* ================================================================== *)
(** * Loading the model and starting the server *)

Example model_name_default :
  whisper_model_name StartSample.no_env = lit "base".
Proof. reflexivity. Qed.

Example model_name_from_env :
  whisper_model_name StartSample.env_tiny = lit "tiny".
Proof. reflexivity. Qed.

Lemma getenv_setenv (env : Environ) (key : string) (value default : pystr) :
  getenv (setenv env key value) key default = value.
Proof. unfold getenv, setenv. rewrite String.eqb_refl. reflexivity. Qed.

Lemma whisper_model_name_setenv (env : Environ) (value : pystr) :
  whisper_model_name (setenv env "WHISPER_MODEL" value) =
  match value with
  | [] => lit "base"
  | _ => value
  end.
Proof.
  unfold whisper_model_name. rewrite getenv_setenv.
  destruct value; reflexivity.
Qed.

(** X8. The name given to [whisper.load_model] is the value of
    [WHISPER_MODEL] in the environment when there is one and it is not
    empty, and ["base"] otherwise; it is never the empty string. The
    loader is asked for this name and for no other: what it returns for
    it is the model the class keeps, and the name is the one written in
    the log line. *)
Theorem model_name_is_env_or_base :
  (forall env, whisper_model_name env <> empty_str)
  /\ (forall env v,
        env "WHISPER_MODEL"%string = Some v -> v <> empty_str ->
        whisper_model_name env = v)
  /\ (forall env,
        env "WHISPER_MODEL"%string = None
        \/ env "WHISPER_MODEL"%string = Some empty_str ->
        whisper_model_name env = lit "base")
  /\ (forall load_model env tr loaded dims v,
        env "WHISPER_MODEL"%string = Some v -> v <> empty_str ->
        load_model v = Ret loaded ->
        model_dims loaded = Ret dims ->
        load_whisper_model load_model env tr =
        (Some (model_call loaded),
         tr ++ [Log INFO (lit "Whisper model '" ++ v
                          ++ lit "' loaded successfully (model info:"
                          ++ dims ++ lit ")")]))
  /\ (forall load_model env tr loaded dims,
        env "WHISPER_MODEL"%string = None
        \/ env "WHISPER_MODEL"%string = Some empty_str ->
        load_model (lit "base") = Ret loaded ->
        model_dims loaded = Ret dims ->
        load_whisper_model load_model env tr =
        (Some (model_call loaded),
         tr ++ [Log INFO (lit "Whisper model 'base"
                          ++ lit "' loaded successfully (model info:"
                          ++ dims ++ lit ")")])).
Proof.
  assert (Hset : forall env v,
            env "WHISPER_MODEL"%string = Some v -> v <> empty_str ->
            whisper_model_name env = v).
  { intros env v Hv Hne. unfold whisper_model_name, getenv. rewrite Hv.
    destruct v; [exfalso; apply Hne; reflexivity | reflexivity]. }
  assert (Hbase : forall env,
            env "WHISPER_MODEL"%string = None
            \/ env "WHISPER_MODEL"%string = Some empty_str ->
            whisper_model_name env = lit "base").
  { intros env [H|H]; unfold whisper_model_name, getenv; rewrite H;
      reflexivity. }
  split; [ | split; [exact Hset | split; [exact Hbase | split]]].
  - intros env. unfold whisper_model_name, getenv.
    destruct (env "WHISPER_MODEL"%string) as [[|c v]|]; discriminate.
  - intros load_model env tr loaded dims v Hv Hne Hload Hdims.
    unfold load_whisper_model. rewrite (Hset env v Hv Hne), Hload, Hdims.
    reflexivity.
  - intros load_model env tr loaded dims Henv Hload Hdims.
    unfold load_whisper_model. rewrite (Hbase env Henv), Hload, Hdims.
    reflexivity.
Qed.

Lemma model_name_is_env_or_base_witness :
  whisper_model_name StartSample.env_tiny = lit "tiny".
Proof.
  destruct model_name_is_env_or_base as [_ [Henv _]].
  apply Henv; [reflexivity | discriminate].
Defined.

(** X9. The import never fails, and it leaves a model exactly when
    [load_model] returned one and its [dims] could be written into the
    log line. In every other case the exception is logged, the class
    attribute is [None], [is_model_loaded] is false and [create] gives no
    instance and starts no thread; when a model is left, [create] gives a
    running instance that holds it. *)
Theorem failed_load_disables_recognition
    (load_model : pystr -> res LoadedModel) (env : Environ)
    (tr tr' : list Event) :
  (is_model_loaded (fst (load_whisper_model load_model env tr)) = true
   <-> exists loaded dims,
         load_model (whisper_model_name env) = Ret loaded
         /\ model_dims loaded = Ret dims)
  /\ (forall e,
        load_model (whisper_model_name env) = Raise e
        \/ (exists loaded,
              load_model (whisper_model_name env) = Ret loaded
              /\ model_dims loaded = Raise e) ->
        load_whisper_model load_model env tr
        = (None,
           tr ++ [Log ERROR (lit "Failed to load Whisper model: "
                             ++ str_exn e)])
        /\ create (fst (load_whisper_model load_model env tr)) tr'
           = (None, tr'))
  /\ (forall loaded dims,
        load_model (whisper_model_name env) = Ret loaded ->
        model_dims loaded = Ret dims ->
        create (fst (load_whisper_model load_model env tr)) tr'
        = (Some (__init__ (Some (model_call loaded)) tr'),
           tr' ++ [ThreadStart])).
Proof.
  unfold load_whisper_model. split; [ | split].
  - destruct (load_model (whisper_model_name env)) as [loaded|e].
    + destruct (model_dims loaded) as [dims|e] eqn:Hd; simpl.
      * split; [ | reflexivity]. intros _. exists loaded, dims.
        split; [reflexivity | exact Hd].
      * split; [discriminate | ]. intros [l [d [Hl Hd']]].
        injection Hl as <-. rewrite Hd in Hd'. discriminate Hd'.
    + simpl. split; [discriminate | ]. intros [l [d [Hl _]]]. discriminate Hl.
  - intros e [Hraise | [loaded [Hret Hdims]]].
    + rewrite Hraise. split; reflexivity.
    + rewrite Hret, Hdims. split; reflexivity.
  - intros loaded dims Hret Hdims. rewrite Hret, Hdims. reflexivity.
Qed.

Lemma failed_load_disables_recognition_witness :
  load_whisper_model StartSample.load_fails StartSample.no_env []
  = (None, [Log ERROR (lit "Failed to load Whisper model: no such model")])
  /\ create (fst (load_whisper_model StartSample.load_fails
                    StartSample.no_env [])) []
     = (None, []).
Proof.
  destruct (failed_load_disables_recognition StartSample.load_fails
              StartSample.no_env [] []) as [_ [Hfail _]].
  apply (Hfail (Exception (lit "no such model"))). left. reflexivity.
Defined.

Example load_then_create :
  fst (create (fst (load_whisper_model StartSample.load_ok
                      StartSample.env_tiny [])) [])
  = Some (__init__ (Some Sample.echo_model) []).
Proof. reflexivity. Qed.

Example load_without_dims :
  load_whisper_model
    (fun _ => Ret {| model_call := Sample.echo_model;
                     model_dims := Raise (Exception (lit "no dims")) |})
    StartSample.no_env []
  = (None, [Log ERROR (lit "Failed to load Whisper model: no dims")]).
Proof. reflexivity. Qed.

(** ** The start of the server *)

Example first_start :
  main_startup StartSample.int_8000 StartSample.set_key_ok
    StartSample.str_any StartSample.accept_all None StartSample.env_tiny
  = Ret (AppConfig_class,
         setenv StartSample.env_tiny "WHISPER_MODEL" (lit "large-v3")).
Proof. reflexivity. Qed.

Lemma startup_inv (py_int : pystr -> res Z)
    (set_key : string -> CfgVal -> res unit) (py_str : CfgVal -> pystr)
    (basicConfig : CfgVal -> res unit)
    (file : option DotenvValues) (env : Environ)
    (cfg : AppConfig) (env' : Environ) :
  main_startup py_int set_key py_str basicConfig file env = Ret (cfg, env') ->
  exists cfg0 env0,
    match file with
    | None =>
        AppConfig_save set_key py_str AppConfig_class = Ret tt
        /\ cfg0 = AppConfig_class /\ env0 = env
    | Some f => AppConfig_load py_int f env = Ret (cfg0, env0)
    end
    /\ env' = setenv env0 "WHISPER_MODEL" (whisper_model cfg0)
    /\ host cfg = host cfg0
    /\ port cfg = port cfg0
    /\ whisper_model cfg = whisper_model cfg0
    /\ (basicConfig (log_level cfg0) = Ret tt /\ log_level cfg = log_level cfg0
        \/ (exists e, basicConfig (log_level cfg0) = Raise e)
           /\ basicConfig (CInt logging_INFO) = Ret tt
           /\ log_level cfg = CInt logging_INFO).
Proof.
  unfold main_startup. intros H.
  assert (Hfirst :
    exists cfg0 env0,
      match file with
      | None =>
          res_bind (AppConfig_save set_key py_str AppConfig_class)
            (fun _ => Ret (AppConfig_class, env))
      | Some f => AppConfig_load py_int f env
      end = Ret (cfg0, env0)).
  { destruct (match file with
              | None => _
              | Some f => _
              end) as [[c0 e0]|e]; [ | discriminate H].
    exists c0, e0. reflexivity. }
  destruct Hfirst as [cfg0 [env0 Hfirst]]. rewrite Hfirst in H.
  cbn [res_bind] in H. exists cfg0, env0.
  assert (Hstart :
    match file with
    | None =>
        AppConfig_save set_key py_str AppConfig_class = Ret tt
        /\ cfg0 = AppConfig_class /\ env0 = env
    | Some f => AppConfig_load py_int f env = Ret (cfg0, env0)
    end).
  { destruct file as [f|]; [exact Hfirst | ].
    destruct (AppConfig_save set_key py_str AppConfig_class) as [[]|e];
      [ | discriminate Hfirst].
    cbn [res_bind] in Hfirst. injection Hfirst as <- <-. repeat split. }
  split; [exact Hstart | ].
  destruct (basicConfig (log_level cfg0)) as [[]|e].
  - injection H as <- <-. repeat split. left. split; reflexivity.
  - destruct (basicConfig (CInt logging_INFO)) as [[]|e2];
      [ | discriminate H].
    cbn [res_bind] in H. injection H as <- <-. repeat split.
    right. split; [exists e; reflexivity | split; reflexivity].
Qed.

Lemma load_inv (py_int : pystr -> res Z) (f : DotenvValues) (env : Environ)
    (cfg : AppConfig) (env' : Environ) :
  AppConfig_load py_int f env = Ret (cfg, env') ->
  env' = load_dotenv f env
  /\ host cfg = CStr (getenv env' "HOST" (lit "0.0.0.0"))
  /\ (exists n,
        py_int (getenv env' "PORT" (lit "8000")) = Ret n /\ port cfg = CInt n)
  /\ log_level cfg = CStr (getenv env' "LOG_LEVEL" (lit "INFO"))
  /\ whisper_model cfg = getenv env' "WHISPER_MODEL" (lit "large-v3").
Proof.
  unfold AppConfig_load. intros H.
  destruct (py_int (getenv (load_dotenv f env) "PORT" (lit "8000")))
    as [n|e] eqn:Hp; [ | discriminate H].
  cbn [res_bind] in H. injection H as <- <-.
  repeat split. exists n. split; [exact Hp | reflexivity].
Qed.

(** X10. On a first start, when there is no configuration file, the model
    name the server puts into the environment is ["large-v3"] whatever
    [WHISPER_MODEL] was there before, so this is the name the import of
    the processor resolves; no other variable of the environment is
    touched. *)
Theorem first_start_ignores_env_model
    (py_int : pystr -> res Z) (set_key : string -> CfgVal -> res unit)
    (py_str : CfgVal -> pystr) (basicConfig : CfgVal -> res unit)
    (env : Environ) (cfg : AppConfig) (env' : Environ) :
  main_startup py_int set_key py_str basicConfig None env = Ret (cfg, env') ->
  whisper_model cfg = lit "large-v3"
  /\ whisper_model_name env' = lit "large-v3"
  /\ forall k, k <> "WHISPER_MODEL"%string -> env' k = env k.
Proof.
  intros H. destruct (startup_inv _ _ _ _ _ _ H)
    as [cfg0 [env0 [[_ [-> ->]] [-> [_ [_ [Hm _]]]]]]].
  split; [exact Hm | ]. split; [reflexivity | ].
  intros k Hk. unfold setenv.
  destruct (String.eqb_spec k "WHISPER_MODEL"); [contradiction | reflexivity].
Qed.

Lemma first_start_ignores_env_model_witness :
  whisper_model_name
    (setenv StartSample.env_tiny "WHISPER_MODEL" (lit "large-v3"))
  = lit "large-v3".
Proof.
  apply (@first_start_ignores_env_model StartSample.int_8000
           StartSample.set_key_ok StartSample.str_any StartSample.accept_all
           StartSample.env_tiny AppConfig_class
           (setenv StartSample.env_tiny "WHISPER_MODEL" (lit "large-v3"))
           eq_refl).
Defined.

(** X11. On a start with a configuration file, the model name the import
    of the processor resolves is the file's [WHISPER_MODEL] when the file
    has one, else the one of the environment, else ["large-v3"]; a
    [WHISPER_MODEL] that is present but empty gives ["base"]. *)
Theorem configured_model_name
    (py_int : pystr -> res Z) (set_key : string -> CfgVal -> res unit)
    (py_str : CfgVal -> pystr) (basicConfig : CfgVal -> res unit)
    (f : DotenvValues) (env : Environ) (cfg : AppConfig) (env' : Environ) :
  main_startup py_int set_key py_str basicConfig (Some f) env
    = Ret (cfg, env') ->
  whisper_model_name env' =
  match f "WHISPER_MODEL"%string with
  | Some [] => lit "base"
  | Some v => v
  | None =>
      match env "WHISPER_MODEL"%string with
      | Some [] => lit "base"
      | Some v => v
      | None => lit "large-v3"
      end
  end.
Proof.
  intros H. destruct (startup_inv _ _ _ _ _ _ H)
    as [cfg0 [env0 [Hload [-> _]]]].
  destruct (load_inv _ _ _ Hload) as [-> [_ [_ [_ ->]]]].
  rewrite whisper_model_name_setenv. unfold getenv, load_dotenv.
  destruct (f "WHISPER_MODEL"%string) as [[|c v]|]; try reflexivity.
  destruct (env "WHISPER_MODEL"%string) as [[|c v]|]; reflexivity.
Qed.

Lemma configured_model_name_witness :
  whisper_model_name
    (setenv (load_dotenv StartSample.file_small StartSample.env_tiny)
       "WHISPER_MODEL" (lit "small"))
  = lit "small".
Proof.
  apply (@configured_model_name StartSample.int_8000
           StartSample.set_key_ok StartSample.str_any StartSample.accept_all
           StartSample.file_small StartSample.env_tiny
           {| host := CStr (lit "0.0.0.0");
              port := CInt 8000;
              log_level := CStr (lit "INFO");
              whisper_model := lit "small" |}
           (setenv (load_dotenv StartSample.file_small StartSample.env_tiny)
              "WHISPER_MODEL" (lit "small"))
           eq_refl).
Defined.

Example blank_model_in_file_gives_base :
  match main_startup StartSample.int_8000 StartSample.set_key_ok
          StartSample.str_any StartSample.accept_all
          (Some StartSample.file_blank_model) StartSample.env_tiny with
  | Ret (_, env') => whisper_model_name env' = lit "base"
  | Raise _ => False
  end.
Proof. reflexivity. Qed.

(** X12. After a start with a configuration file, [AppConfig.host] is a
    string and [AppConfig.port] an integer, the ones [load] read; after a
    first start without a file they are still what the class body
    assigned, the tuples [("0.0.0.0",)] and [(8000,)]. *)
Theorem host_and_port_after_startup
    (py_int : pystr -> res Z) (set_key : string -> CfgVal -> res unit)
    (py_str : CfgVal -> pystr) (basicConfig : CfgVal -> res unit) :
  (forall env cfg env',
     main_startup py_int set_key py_str basicConfig None env
       = Ret (cfg, env') ->
     host cfg = CTuple [CStr (lit "0.0.0.0")]
     /\ port cfg = CTuple [CInt 8000])
  /\ (forall f env cfg env',
        main_startup py_int set_key py_str basicConfig (Some f) env
          = Ret (cfg, env') ->
        host cfg = CStr (getenv (load_dotenv f env) "HOST" (lit "0.0.0.0"))
        /\ exists n,
             py_int (getenv (load_dotenv f env) "PORT" (lit "8000")) = Ret n
             /\ port cfg = CInt n).
Proof.
  split.
  - intros env cfg env' H. destruct (startup_inv _ _ _ _ _ _ H)
      as [cfg0 [env0 [[_ [-> ->]] [_ [Hh [Hp _]]]]]].
    split; assumption.
  - intros f env cfg env' H. destruct (startup_inv _ _ _ _ _ _ H)
      as [cfg0 [env0 [Hload [_ [Hh [Hp _]]]]]].
    destruct (load_inv _ _ _ Hload) as [-> [Hh0 [[n [Hn Hp0]] _]]].
    rewrite Hh, Hp, Hh0, Hp0. split; [reflexivity | ].
    exists n. split; [exact Hn | reflexivity].
Qed.

Lemma host_and_port_after_startup_witness :
  host AppConfig_class = CTuple [CStr (lit "0.0.0.0")]
  /\ port AppConfig_class = CTuple [CInt 8000].
Proof.
  destruct (host_and_port_after_startup StartSample.int_8000
              StartSample.set_key_ok StartSample.str_any
              StartSample.accept_all) as [Hfirst _].
  apply (Hfirst StartSample.env_tiny AppConfig_class
           (setenv StartSample.env_tiny "WHISPER_MODEL" (lit "large-v3"))
           eq_refl).
Defined.



(** X14. Nothing catches what [int] raises on the [PORT] text or what
    [set_key] raises while the configuration is saved: the start of the
    server ends in that exception, before the model name reaches the
    environment. *)
Theorem startup_fails_on_bad_port_or_save
    (py_int : pystr -> res Z) (set_key : string -> CfgVal -> res unit)
    (py_str : CfgVal -> pystr) (basicConfig : CfgVal -> res unit)
    (env : Environ) (e : exn) :
  (forall f,
     py_int (getenv (load_dotenv f env) "PORT" (lit "8000")) = Raise e ->
     main_startup py_int set_key py_str basicConfig (Some f) env = Raise e)
  /\ (AppConfig_save set_key py_str AppConfig_class = Raise e ->
      main_startup py_int set_key py_str basicConfig None env = Raise e).
Proof.
  split.
  - intros f H. unfold main_startup, AppConfig_load. rewrite H. reflexivity.
  - intros H. unfold main_startup. rewrite H. reflexivity.
Qed.

Lemma startup_fails_on_bad_port_or_save_witness :
  main_startup StartSample.int_8000 StartSample.set_key_ok
    StartSample.str_any StartSample.accept_all
    (Some (fun k => if String.eqb k "PORT" then Some (lit "(8000,)") else None))
    StartSample.no_env
  = Raise (Exception (lit "invalid literal for int()")).
Proof.
  destruct (startup_fails_on_bad_port_or_save StartSample.int_8000
              StartSample.set_key_ok StartSample.str_any
              StartSample.accept_all StartSample.no_env
              (Exception (lit "invalid literal for int()"))) as [Hport _].
  apply Hport. reflexivity.
Defined.
